(** * pkg/crypto/helpers.go: certificate and key helpers

    A shallow embedding of the helpers of [pkg/crypto]: issuing a self-signed
    RSA certificate, reading and writing PEM files, extracting the push topic
    of a certificate, and verifying a PKCS7 object under clock skew.

    Go values are modelled as follows.
    - [error] is the text an error reports through [Error()]; a [nil] error
      is [None].
    - A pointer result that may be [nil] is an [option].
    - [[]byte] is [list byte]; where the code compares a slice with [nil]
      (the password of a key file) the slice is an [option (list byte)].
    - [time.Time] is an instant counted in nanoseconds, [time.Duration] a
      64-bit signed count of nanoseconds with Go's wrap-around.
    - The packages the helpers call ([crypto/rsa], [crypto/x509],
      [encoding/pem], [crypto/rand], [go.mozilla.org/pkcs7]) are not part of
      this repository: their functions are parameters of the development. *)

From Stdlib Require Import ZArith List String Ascii Strings.Byte Bool Lia.
From Stdlib Require Import DecimalString DecimalZ.
From stdpp Require Import gmap strings.
Import ListNotations.

Local Open Scope Z_scope.
Local Open Scope string_scope.

(** ** Errors and results *)

Definition error := string.

Inductive result (A : Type) : Type :=
| Ok (a : A)
| Err (e : error).
Arguments Ok {A} a.
Arguments Err {A} e.

Definition errors_New (text : string) : error := text.

#[global] Instance byte_eq_decision : EqDecision byte := Byte.byte_eq_dec.

(** ** Package [strings] *)

(** [strings.HasPrefix s prefix]. *)
Fixpoint strings_HasPrefix (s prefix : string) {struct prefix} : bool :=
  match prefix with
  | EmptyString => true
  | String p prefix' =>
      match s with
      | EmptyString => false
      | String c s' => if Ascii.eqb c p then strings_HasPrefix s' prefix' else false
      end
  end.

(** [strings.Contains s substr]: [substr] occurs at some offset of [s]. *)
Fixpoint strings_Contains (s substr : string) : bool :=
  strings_HasPrefix s substr ||
  match s with
  | EmptyString => false
  | String _ s' => strings_Contains s' substr
  end.

(** ** Package [time] *)

Definition Time := Z.
Definition Duration := Z.

Definition int64_wrap (z : Z) : Z := (z + 2 ^ 63) mod 2 ^ 64 - 2 ^ 63.

Definition Nanosecond : Duration := 1.
Definition Second : Duration := 1000000000.
Definition Hour : Duration := 3600 * Second.

(** Arithmetic on [Duration] is arithmetic on [int64]. *)
Definition Duration_mul (a b : Duration) : Duration := int64_wrap (a * b).
Definition Duration_neg (d : Duration) : Duration := int64_wrap (- d).

(** [time.Duration(days)]: conversion of an [int]. *)
Definition Duration_of_int (n : Z) : Duration := int64_wrap n.

(** [t.Add(d)] moves the instant [t] by [d]. *)
Definition Time_Add (t : Time) (d : Duration) : Time := t + d.

(** ** Package [encoding/asn1] *)

Module asn1.

Definition ObjectIdentifier := list Z.

(** [oi.Equal(other)]: same length and same arcs. *)
Fixpoint Equal (oi other : ObjectIdentifier) : bool :=
  match oi, other with
  | [], [] => true
  | a :: oi', b :: other' => if Z.eqb a b then Equal oi' other' else false
  | _, _ => false
  end.

End asn1.

(** The dynamic values ([interface{}]) an attribute of a parsed name holds. *)
Inductive any : Type :=
| any_string (s : string)
| any_int (n : Z)
| any_bytes (b : list byte)
| any_nil.

(** The type assertion [x.(string)] in its two-result form. *)
Definition assert_string (x : any) : string * bool :=
  match x with
  | any_string s => (s, true)
  | _ => ("", false)
  end.

(** ** Packages [crypto/x509/pkix], [crypto/x509], [crypto/rsa], [encoding/pem] *)

Module pkix.

Record AttributeTypeAndValue := {
  Type_ : asn1.ObjectIdentifier;
  Value : any
}.

Record Name := {
  CommonName : string;
  Names : list AttributeTypeAndValue
}.

End pkix.

Module rsa.

Record PublicKey := { N : Z; E : Z }.

Record PrivateKey := {
  Public : PublicKey;
  D : Z;
  Primes : list Z
}.

End rsa.

Module x509.

Record Certificate := {
  Raw : list byte;
  SerialNumber : Z;
  Subject : pkix.Name;
  NotBefore : Time;
  NotAfter : Time;
  KeyUsage : Z;
  ExtKeyUsage : list Z;
  BasicConstraintsValid : bool;
  DNSNames : list string
}.

Definition KeyUsageDigitalSignature : Z := 1.
Definition KeyUsageKeyEncipherment : Z := 4.
Definition ExtKeyUsageServerAuth : Z := 1.

(** [*x509.CertPool]: the certificates of a trust store. *)
Definition CertPool := list Certificate.

Inductive PEMCipher := PEMCipherDES | PEMCipher3DES | PEMCipherAES128
                     | PEMCipherAES192 | PEMCipherAES256.

End x509.

Module pem.

Record Block := {
  Type_ : string;
  Headers : gmap string string;
  Bytes : list byte
}.

End pem.

(** ** TopicFromCert *)

Definition oidASN1UserID : asn1.ObjectIdentifier :=
  [0; 9; 2342; 19200300; 100; 1; 1].

Definition topic_prefix : string := "com.apple.mgmt".

Definition invalid_topic_text : string :=
  "invalid Push Topic (UserID OID) in certificate. Must start with 'com.apple.mgmt', was: ".

Definition topic_not_found_text : string :=
  "could not find Push Topic (UserID OID) in certificate".

(** The [for _, v := range cert.Subject.Names] loop of [TopicFromCert]; the
    statement after the loop is the case of the empty list. *)
Fixpoint TopicFromCert_range (names : list pkix.AttributeTypeAndValue)
  : string * option error :=
  match names with
  | [] => ("", Some (errors_New topic_not_found_text))
  | v :: names' =>
      if asn1.Equal (pkix.Type_ v) oidASN1UserID then
        let '(uid, ok) := assert_string (pkix.Value v) in
        if ok && strings_HasPrefix uid topic_prefix then (uid, None)
        else ("", Some (errors_New (invalid_topic_text ++ uid)))
      else TopicFromCert_range names'
  end.

Definition TopicFromCert (cert : x509.Certificate) : string * option error :=
  TopicFromCert_range (pkix.Names (x509.Subject cert)).


(** ** The world the helpers run in

    The helpers read the clock, draw from [crypto/rand.Reader], read and write
    files and call the verifier of a PKCS7 object.  A [World] holds what these
    effects depend on and what they leave behind. *)

Record World := mkWorld {
  files : gmap string (list byte);      (* contents of the files, by path *)
  write_denied : gset string;           (* paths that cannot be opened for writing *)
  entropy : list byte;                  (* what [rand.Reader] has yet to deliver *)
  wallclock : nat -> Time;              (* the successive readings of the clock *)
  ticks : nat;                          (* how many readings were taken *)
  p7_calls : list (option x509.CertPool * Time)
                                        (* the verifications requested so far *)
}.

Definition M (A : Type) : Type := World -> A * World.

Definition ret {A : Type} (a : A) : M A := fun w => (a, w).

Definition bind {A B : Type} (m : M A) (k : A -> M B) : M B :=
  fun w => let '(a, w') := m w in k a w'.

Notation "'let*' x ':=' m 'in' k" := (bind m (fun x => k))
  (at level 10, x name, m at level 100, k at level 200).

Definition set_files (f : gmap string (list byte)) (w : World) : World :=
  mkWorld f (write_denied w) (entropy w) (wallclock w) (ticks w) (p7_calls w).

Definition set_entropy (e : list byte) (w : World) : World :=
  mkWorld (files w) (write_denied w) e (wallclock w) (ticks w) (p7_calls w).

Definition set_ticks (n : nat) (w : World) : World :=
  mkWorld (files w) (write_denied w) (entropy w) (wallclock w) n (p7_calls w).

Definition set_p7_calls (l : list (option x509.CertPool * Time)) (w : World) : World :=
  mkWorld (files w) (write_denied w) (entropy w) (wallclock w) (ticks w) l.

(** [time.Now()]. *)
Definition time_Now : M Time :=
  fun w => (wallclock w (ticks w), set_ticks (S (ticks w)) w).

(** [ioutil.ReadFile(path)]. *)
Definition ioutil_ReadFile (path : string) : M (result (list byte)) :=
  fun w =>
    match files w !! path with
    | Some data => (Ok data, w)
    | None => (Err ("open " ++ path ++ ": no such file or directory"), w)
    end.

(** [os.Create(path)] and [os.OpenFile(path, O_WRONLY|O_CREATE|O_TRUNC, _)]:
    on success the file exists and is empty; the handle is the path. *)
Definition os_OpenFile_trunc (path : string) : M (option error) :=
  fun w =>
    if decide (path ∈ write_denied w)
    then (Some ("open " ++ path ++ ": permission denied"), w)
    else (None, set_files (<[path := []]> (files w)) w).

(** Writing to an open file appends to it. *)
Definition file_Write (path : string) (data : list byte) : M unit :=
  fun w =>
    (tt, set_files (<[path := (default [] (files w !! path) ++ data)%list]> (files w)) w).

(** A [[]byte] argument that may be [nil], where only its bytes matter. *)
Definition bytes_of (b : option (list byte)) : list byte := default [] b.

(** ** The packages the helpers call *)

Class rand_api := {
  (** [rsa.GenerateKey(rand.Reader, bits)], from and to the state of the reader *)
  rsa_GenerateKey : list byte -> Z -> result rsa.PrivateKey * list byte;
  (** [rand.Int(rand.Reader, max)] *)
  rand_Int : list byte -> Z -> result Z * list byte
}.

Class pem_api := {
  (** [pem.Decode(data)]: the next block, if any, and the rest of the input *)
  pem_Decode : list byte -> option pem.Block * list byte;
  (** the bytes [pem.Encode(out, b)] writes to [out], or its error *)
  pem_Encode : pem.Block -> result (list byte);
  (** what [pem.Encode(out, b)] had written to [out] when it returned its
      error: nothing for a block it refuses, a part of the text when the
      writer fails under it *)
  pem_Encode_written : pem.Block -> list byte
}.

Class x509_api := {
  x509_ParseCertificates : list byte -> result (list x509.Certificate);
  x509_ParseCertificate : list byte -> result x509.Certificate;
  x509_CreateCertificate :
    list byte -> x509.Certificate -> x509.Certificate ->
    rsa.PublicKey -> rsa.PrivateKey -> result (list byte) * list byte;
  x509_IsEncryptedPEMBlock : pem.Block -> bool;
  x509_DecryptPEMBlock : pem.Block -> list byte -> result (list byte);
  x509_EncryptPEMBlock :
    list byte -> string -> list byte -> list byte -> x509.PEMCipher ->
    result pem.Block * list byte;
  x509_MarshalPKCS1PrivateKey : rsa.PrivateKey -> list byte;
  x509_ParsePKCS1PrivateKey : list byte -> result rsa.PrivateKey
}.

(** A call that draws from [rand.Reader] leaves the reader advanced. *)
Definition with_rand {A : Type} (f : list byte -> A * list byte) : M A :=
  fun w => let '(a, e) := f (entropy w) in (a, set_entropy e w).

Module pkcs7.

(** A parsed PKCS7 object, as far as the helpers see it: what its method
    [VerifyWithChainAtTime(truststore, currentTime)] answers. *)
Record PKCS7 := {
  verdict : option x509.CertPool -> Time -> option error
}.

Definition VerifyWithChainAtTime (p7 : PKCS7)
    (truststore : option x509.CertPool) (currentTime : Time) : M (option error) :=
  fun w =>
    (verdict p7 truststore currentTime,
     set_p7_calls (p7_calls w ++ [(truststore, currentTime)])%list w).

End pkcs7.

(** ** GenerateRandomCertificateSerialNumber, SimpleSelfSignedRSAKeypair *)

Definition GenerateRandomCertificateSerialNumber `{rand_api} : M (result Z) :=
  let limit := Z.shiftl 1 128 in
  with_rand (fun r => rand_Int r limit).

Definition template_of (cn : string) (days : Z) (serialNumber : Z) (timeNow : Time)
  : x509.Certificate :=
  {| x509.Raw := [];
     x509.SerialNumber := serialNumber;
     x509.Subject := {| pkix.CommonName := cn; pkix.Names := [] |};
     x509.NotBefore := timeNow;
     x509.NotAfter :=
       Time_Add timeNow (Duration_mul (Duration_mul (Duration_of_int days) 24) Hour);
     x509.KeyUsage := Z.lor x509.KeyUsageKeyEncipherment x509.KeyUsageDigitalSignature;
     x509.ExtKeyUsage := [x509.ExtKeyUsageServerAuth];
     x509.BasicConstraintsValid := true;
     x509.DNSNames := [cn] |}.

(** The three results are the named results [key], [cert], [err] of the Go
    function, each as it stands at the [return] that is taken. *)
Definition SimpleSelfSignedRSAKeypair `{rand_api} `{x509_api} (cn : string) (days : Z)
  : M (option rsa.PrivateKey * option x509.Certificate * option error) :=
  let* k := with_rand (fun r => rsa_GenerateKey r 2048) in
  match k with
  | Err err => ret (None, None, Some err)
  | Ok key =>
      let* s := GenerateRandomCertificateSerialNumber in
      match s with
      | Err err => ret (Some key, None, Some err)
      | Ok serialNumber =>
          let* timeNow := time_Now in
          let template := template_of cn days serialNumber timeNow in
          let* c := with_rand (fun r =>
                      x509_CreateCertificate r template template (rsa.Public key) key) in
          match c with
          | Err err => ret (Some key, None, Some err)
          | Ok certBytes =>
              match x509_ParseCertificate certBytes with
              | Err err => ret (Some key, None, Some err)
              | Ok cert => ret (Some key, Some cert, None)
              end
          end
      end
  end.

(** ** Reading PEM files *)

Definition rsaPrivateKeyPEMBlockType : string := "RSA PRIVATE KEY".
Definition certificatePEMBlockType : string := "CERTIFICATE".

Definition certificate_block_text : string :=
  "failed to decode PEM block containing certificate".

(** The [for] loop of [ReadPEMCertificatesFile].  Each turn calls
    [pem.Decode] once; [fuel] bounds the number of turns, and [None] is a
    loop that has not ended within the bound. *)
Fixpoint ReadPEMCertificatesFile_for `{pem_api} (fuel : nat)
    (rest asn1data : list byte) : option (result (list byte)) :=
  match fuel with
  | O => None
  | S fuel' =>
      let '(block, rest') := pem_Decode rest in
      match block with
      | None => Some (Err (errors_New certificate_block_text))
      | Some b =>
          if negb (String.eqb (pem.Type_ b) certificatePEMBlockType)
          then Some (Err (errors_New certificate_block_text))
          else
            let asn1data' := (asn1data ++ pem.Bytes b)%list in
            if Nat.eqb (length rest') 0 then Some (Ok asn1data')
            else ReadPEMCertificatesFile_for fuel' rest' asn1data'
      end
  end.

(** A turn that goes on has consumed input, so one turn per byte of the
    file and one more are enough. *)
Definition ReadPEMCertificatesFile `{pem_api} `{x509_api} (path : string)
  : M (option (list x509.Certificate * option error)) :=
  let* r := ioutil_ReadFile path in
  match r with
  | Err err => ret (Some ([], Some err))
  | Ok pemData =>
      match ReadPEMCertificatesFile_for (S (length pemData)) pemData [] with
      | None => ret None
      | Some (Err err) => ret (Some ([], Some err))
      | Some (Ok asn1data) =>
          match x509_ParseCertificates asn1data with
          | Err err => ret (Some ([], Some err))
          | Ok certs => ret (Some (certs, None))
          end
      end
  end.

Definition ReadPEMCertificateFile `{pem_api} `{x509_api} (path : string)
  : M (option (option x509.Certificate * option error)) :=
  let* r := ReadPEMCertificatesFile path in
  match r with
  | None => ret None
  | Some (_, Some err) => ret (Some (None, Some err))
  | Some (certs, None) =>
      match certs with
      | [c] => ret (Some (Some c, None))
      | _ => ret (Some (None, Some (errors_New "incorrect number of certificates")))
      end
  end.

Definition missing_password_text : string := "no supplied password for encrypted PEM".
Definition unexpected_password_text : string := "supplied PEM password, but not encrypted".

Definition pair_of_result {A : Type} (r : result A) : option A * option error :=
  match r with
  | Ok a => (Some a, None)
  | Err e => (None, Some e)
  end.

Definition ReadEncryptedPEMRSAKeyFile `{pem_api} `{x509_api}
    (path : string) (password : option (list byte))
  : M (option rsa.PrivateKey * option error) :=
  let* r := ioutil_ReadFile path in
  match r with
  | Err err => ret (None, Some err)
  | Ok pemData =>
      match fst (pem_Decode pemData) with
      | None => ret (None, Some (errors_New "PEM decode failed"))
      | Some pemBlock =>
          if negb (String.eqb (pem.Type_ pemBlock) rsaPrivateKeyPEMBlockType)
          then ret (None, Some ("expecting PEM type of " ++ rsaPrivateKeyPEMBlockType
                                 ++ ", but got " ++ pem.Type_ pemBlock))
          else if x509_IsEncryptedPEMBlock pemBlock then
            match password with
            | None => ret (None, Some (errors_New missing_password_text))
            | Some pw =>
                match x509_DecryptPEMBlock pemBlock pw with
                | Err err => ret (None, Some err)
                | Ok derBytes => ret (pair_of_result (x509_ParsePKCS1PrivateKey derBytes))
                end
            end
          else
            match password with
            | Some _ => ret (None, Some (errors_New unexpected_password_text))
            | None => ret (pair_of_result (x509_ParsePKCS1PrivateKey (pem.Bytes pemBlock)))
            end
      end
  end.

Definition ReadPEMRSAKeyFile `{pem_api} `{x509_api} (path : string)
  : M (option rsa.PrivateKey * option error) :=
  ReadEncryptedPEMRSAKeyFile path None.

(** ** Writing PEM files *)

(** [pem.Encode(file, b)] on the open file [path]: it writes as it goes, so
    what it had written when it failed stays in the file. *)
Definition pem_Encode_to `{pem_api} (path : string) (b : pem.Block) : M (option error) :=
  match pem_Encode b with
  | Err err => let* _ := file_Write path (pem_Encode_written b) in ret (Some err)
  | Ok text => let* _ := file_Write path text in ret None
  end.

Definition WritePEMCertificateFile `{pem_api} (cert : x509.Certificate) (path : string)
  : M (option error) :=
  let* o := os_OpenFile_trunc path in
  match o with
  | Some err => ret (Some err)
  | None =>
      pem_Encode_to path
        {| pem.Type_ := certificatePEMBlockType;
           pem.Headers := ∅;
           pem.Bytes := x509.Raw cert |}
  end.

Definition WritePEMRSAKeyFile `{pem_api} `{x509_api} (key : rsa.PrivateKey) (path : string)
  : M (option error) :=
  let* o := os_OpenFile_trunc path in
  match o with
  | Some err => ret (Some err)
  | None =>
      pem_Encode_to path
        {| pem.Type_ := rsaPrivateKeyPEMBlockType;
           pem.Headers := ∅;
           pem.Bytes := x509_MarshalPKCS1PrivateKey key |}
  end.

Definition WriteEncryptedPEMRSAKeyFile `{pem_api} `{x509_api}
    (key : rsa.PrivateKey) (password : option (list byte)) (path : string)
  : M (option error) :=
  let* o := os_OpenFile_trunc path in
  match o with
  | Some err => ret (Some err)
  | None =>
      let* e := with_rand (fun r =>
                  x509_EncryptPEMBlock r rsaPrivateKeyPEMBlockType
                    (x509_MarshalPKCS1PrivateKey key) (bytes_of password)
                    x509.PEMCipher3DES) in
      match e with
      | Err err => ret (Some err)
      | Ok encPemBlock => pem_Encode_to path encPemBlock
      end
  end.

(** ** PKCS7Verifier *)

Record PKCS7Verifier := {
  MaxSkew : Duration
}.

Definition validity_window_text : string := "is outside of certificate validity".

Definition Verify (v : PKCS7Verifier) (p7 : pkcs7.PKCS7) : M (option error) :=
  let* now1 := time_Now in
  let* err := pkcs7.VerifyWithChainAtTime p7 None (Time_Add now1 (MaxSkew v)) in
  match err with
  | Some e =>
      if strings_Contains e validity_window_text then
        let* now2 := time_Now in
        pkcs7.VerifyWithChainAtTime p7 None (Time_Add now2 (Duration_neg (MaxSkew v)))
      else ret err
  | None => ret err
  end.

(** For comparison with [Verify]: the operation as the specification words
    it, [verify(envelope, trustAnchors)], which hands the trust anchors it is
    given to both attempts. *)
Definition verify_with_trust_anchors (v : PKCS7Verifier) (envelope : pkcs7.PKCS7)
    (trustAnchors : option x509.CertPool) : M (option error) :=
  let* now1 := time_Now in
  let* err := pkcs7.VerifyWithChainAtTime envelope trustAnchors
                (Time_Add now1 (MaxSkew v)) in
  match err with
  | Some e =>
      if strings_Contains e validity_window_text then
        let* now2 := time_Now in
        pkcs7.VerifyWithChainAtTime envelope trustAnchors
          (Time_Add now2 (Duration_neg (MaxSkew v)))
      else ret err
  | None => ret err
  end.

(** ** Vocabulary of the statements *)

(** [s] begins with [prefix]; [substr] occurs in [s]. *)
Definition begins_with (prefix s : string) : Prop := exists rest, s = prefix ++ rest.
Definition occurs_in (substr s : string) : Prop :=
  exists before after, s = before ++ substr ++ after.

(** The attribute is a UserID attribute. *)
Definition is_UserID (a : pkix.AttributeTypeAndValue) : Prop :=
  pkix.Type_ a = oidASN1UserID.

(** The failure class that makes [Verify] try again. *)
Definition validity_window_failure (e : error) : Prop :=
  occurs_in validity_window_text e.


(** [t] truncated to a multiple of the granularity [g]. *)
Definition truncate_to (g : Z) (t : Time) : Time := g * (t / g).

(** The largest number of days whose nanoseconds fit a [Duration]. *)
Definition max_days : Z := 106751.

(** Scanning [data] block by block as [ReadPEMCertificatesFile] does meets,
    before the end of the input, a place where [pem.Decode] finds no block or
    finds a block that is not a CERTIFICATE. *)
Inductive meets_bad_block `{pem_api} : list byte -> Prop :=
| bad_missing data :
    fst (pem_Decode data) = None -> meets_bad_block data
| bad_mistyped data b :
    fst (pem_Decode data) = Some b ->
    pem.Type_ b <> certificatePEMBlockType -> meets_bad_block data
| bad_later data b rest :
    pem_Decode data = (Some b, rest) ->
    pem.Type_ b = certificatePEMBlockType ->
    rest <> [] ->
    meets_bad_block rest -> meets_bad_block data.

(** ** An executable instance of the packages

    Small stand-ins for [crypto/rand], [crypto/rsa], [encoding/pem] and
    [crypto/x509], on which the helpers can be run. *)

Module Sim.

(** A length-prefixed chunk: the length in unary, then the bytes. *)
Definition chunk (l : list byte) : list byte :=
  (repeat x01 (length l) ++ x00 :: l)%list.

Fixpoint read_len (d : list byte) : option (nat * list byte) :=
  match d with
  | x00 :: r => Some (O, r)
  | x01 :: r =>
      match read_len r with
      | Some (n, r') => Some (S n, r')
      | None => None
      end
  | _ => None
  end.

Definition read_chunk (d : list byte) : option (list byte * list byte) :=
  match read_len d with
  | Some (n, r) => if (n <=? length r)%nat then Some (take n r, drop n r) else None
  | None => None
  end.

(** An integer as decimal text. *)
Definition dec (z : Z) : list byte :=
  list_byte_of_string (NilEmpty.string_of_int (Z.to_int z)).

Definition undec (l : list byte) : option Z :=
  option_map Z.of_int (NilEmpty.int_of_string (string_of_list_byte l)).

Definition be_value (l : list byte) : Z :=
  fold_left (fun acc b => acc * 256 + Z.of_N (Byte.to_N b)) l 0.

Definition eof : error := "unexpected EOF".

(** *** crypto/rand, crypto/rsa *)

Definition GenerateKey (r : list byte) (bits : Z) : result rsa.PrivateKey * list byte :=
  match r with
  | p :: q :: r' =>
      let p' := 2 * be_value [p] + 3 in
      let q' := 2 * be_value [q] + 3 in
      (Ok {| rsa.Public := {| rsa.N := p' * q'; rsa.E := 65537 |};
             rsa.D := 1;
             rsa.Primes := [p'; q'] |}, r')
  | _ => (Err eof, r)
  end.

Definition Int (r : list byte) (max : Z) : result Z * list byte :=
  if (length r <? 16)%nat then (Err eof, r)
  else (Ok (be_value (take 16 r) mod max), drop 16 r).

Definition rand_pkg : rand_api :=
  {| rsa_GenerateKey := GenerateKey; rand_Int := Int |}.

(** *** encoding/pem *)

Definition encrypted_headers : gmap string string :=
  <["Proc-Type" := "4,ENCRYPTED"]> (<["DEK-Info" := "DES-EDE3-CBC,0102030405060708"]> ∅).

Definition pem_text (flag : byte) (b : pem.Block) : list byte :=
  (flag :: chunk (list_byte_of_string (pem.Type_ b)) ++ chunk (pem.Bytes b))%list.

Definition Encode (b : pem.Block) : result (list byte) :=
  if decide (pem.Headers b = ∅) then Ok (pem_text x00 b)
  else if decide (pem.Headers b = encrypted_headers) then Ok (pem_text x01 b)
  else Err "pem: cannot encode a header".

Definition headers_of_flag (flag : byte) : option (gmap string string) :=
  match flag with
  | x00 => Some ∅
  | x01 => Some encrypted_headers
  | _ => None
  end.

(** A block that begins at the first byte of [data]. *)
Definition decode_here (data : list byte) : option (pem.Block * list byte) :=
  match data with
  | flag :: d1 =>
      match headers_of_flag flag, read_chunk d1 with
      | Some h, Some (ty, d2) =>
          match read_chunk d2 with
          | Some (body, rest) =>
              Some ({| pem.Type_ := string_of_list_byte ty;
                       pem.Headers := h;
                       pem.Bytes := body |}, rest)
          | None => None
          end
      | _, _ => None
      end
  | [] => None
  end.

(** As [pem.Decode] does, the stand-in skips the bytes that come before the
    next block; when there is no block it returns the whole input as rest. *)
Fixpoint Decode (data : list byte) : option pem.Block * list byte :=
  match data with
  | [] => (None, [])
  | c :: data' =>
      match decode_here data with
      | Some (b, rest) => (Some b, rest)
      | None =>
          match Decode data' with
          | (Some b, rest) => (Some b, rest)
          | (None, _) => (None, data)
          end
      end
  end.

(** The stand-in refuses a block before writing anything. *)
Definition pem_pkg : pem_api :=
  {| pem_Decode := Decode; pem_Encode := Encode; pem_Encode_written := fun _ => [] |}.

(** *** crypto/x509 *)

Definition malformed : error := "x509: malformed certificate".

(** The stand-in for DER keeps the serial number, the validity in whole
    seconds and the common name. *)
Definition CreateCertificate (r : list byte) (template parent : x509.Certificate)
    (pub : rsa.PublicKey) (priv : rsa.PrivateKey) : result (list byte) * list byte :=
  if (x509.SerialNumber template <? 0)%Z
  then (Err "x509: serial number must be positive", r)
  else
    (Ok (chunk (dec (x509.SerialNumber template))
         ++ chunk (dec (x509.NotBefore template / Second))
         ++ chunk (dec (x509.NotAfter template / Second))
         ++ list_byte_of_string (pkix.CommonName (x509.Subject template)))%list, r).

Definition ParseCertificate (der : list byte) : result x509.Certificate :=
  match read_chunk der with
  | Some (s, d1) =>
      match read_chunk d1 with
      | Some (nb, d2) =>
          match read_chunk d2 with
          | Some (na, cn) =>
              match undec s, undec nb, undec na with
              | Some serial, Some notBefore, Some notAfter =>
                  Ok {| x509.Raw := der;
                        x509.SerialNumber := serial;
                        x509.Subject :=
                          {| pkix.CommonName := string_of_list_byte cn;
                             pkix.Names := [] |};
                        x509.NotBefore := Second * notBefore;
                        x509.NotAfter := Second * notAfter;
                        x509.KeyUsage := 5;
                        x509.ExtKeyUsage := [x509.ExtKeyUsageServerAuth];
                        x509.BasicConstraintsValid := true;
                        x509.DNSNames := [string_of_list_byte cn] |}
              | _, _, _ => Err malformed
              end
          | None => Err malformed
          end
      | None => Err malformed
      end
  | None => Err malformed
  end.

Definition ParseCertificates (der : list byte) : result (list x509.Certificate) :=
  match der with
  | [] => Ok []
  | _ =>
      match ParseCertificate der with
      | Ok c => Ok [c]
      | Err e => Err e
      end
  end.

Definition IsEncryptedPEMBlock (b : pem.Block) : bool :=
  bool_decide (is_Some (pem.Headers b !! "DEK-Info")).

(** The stand-in for the cipher derives a key of one byte from the password
    (its bytes added up) and keeps the key in front of the reversed
    plaintext.  A password that derives another key is refused; a password
    that derives the same key decrypts, whether or not it is the password
    the block was encrypted with: an incorrect password is not always
    noticed. *)
Definition derive_key (password : list byte) : byte :=
  default x00
    (Byte.of_N (N.modulo (fold_right (fun b acc => N.add (Byte.to_N b) acc) 0%N password)
                  256)).

Definition EncryptPEMBlock (r : list byte) (blockType : string)
    (data password : list byte) (alg : x509.PEMCipher) : result pem.Block * list byte :=
  if (length r <? 8)%nat then (Err eof, r)
  else
    (Ok {| pem.Type_ := blockType;
           pem.Headers := encrypted_headers;
           pem.Bytes := derive_key password :: rev data |}, drop 8 r).

Definition DecryptPEMBlock (b : pem.Block) (password : list byte) : result (list byte) :=
  match pem.Bytes b with
  | k :: body =>
      if decide (k = derive_key password) then Ok (rev body)
      else Err "x509: decryption password incorrect"
  | [] => Err "x509: no DEK-Info header in block"
  end.

Definition MarshalPKCS1PrivateKey (key : rsa.PrivateKey) : list byte :=
  (chunk (dec (rsa.N (rsa.Public key))) ++ chunk (dec (rsa.E (rsa.Public key)))
   ++ chunk (dec (rsa.D key))
   ++ chunk (dec (nth 0 (rsa.Primes key) 0)) ++ chunk (dec (nth 1 (rsa.Primes key) 0)))%list.

Definition key_malformed : error := "x509: failed to parse private key".

Definition ParsePKCS1PrivateKey (der : list byte) : result rsa.PrivateKey :=
  match read_chunk der with
  | Some (n, d1) =>
      match read_chunk d1 with
      | Some (e, d2) =>
          match read_chunk d2 with
          | Some (d, d3) =>
              match read_chunk d3 with
              | Some (p, d4) =>
                  match read_chunk d4 with
                  | Some (q, []) =>
                      match undec n, undec e, undec d, undec p, undec q with
                      | Some n', Some e', Some d', Some p', Some q' =>
                          if (n' =? p' * q')%Z then
                            Ok {| rsa.Public := {| rsa.N := n'; rsa.E := e' |};
                                  rsa.D := d';
                                  rsa.Primes := [p'; q'] |}
                          else Err "crypto/rsa: invalid modulus"
                      | _, _, _, _, _ => Err key_malformed
                      end
                  | _ => Err key_malformed
                  end
              | None => Err key_malformed
              end
          | None => Err key_malformed
          end
      | None => Err key_malformed
      end
  | None => Err key_malformed
  end.

Definition x509_pkg : x509_api :=
  {| x509_ParseCertificates := ParseCertificates;
     x509_ParseCertificate := ParseCertificate;
     x509_CreateCertificate := CreateCertificate;
     x509_IsEncryptedPEMBlock := IsEncryptedPEMBlock;
     x509_DecryptPEMBlock := DecryptPEMBlock;
     x509_EncryptPEMBlock := EncryptPEMBlock;
     x509_MarshalPKCS1PrivateKey := MarshalPKCS1PrivateKey;
     x509_ParsePKCS1PrivateKey := ParsePKCS1PrivateKey |}.

(** *** Worlds and inputs to run on *)

Definition bytes_upto (n : nat) : list byte :=
  map (fun i => default x00 (Byte.of_N (N.of_nat i))) (seq 1 n).

(** A clock that starts at 2026-01-01T00:00:00.25Z and advances by one
    millisecond at each reading. *)
Definition clock (n : nat) : Time := 1767225600250000000 + 1000000 * Z.of_nat n.

Definition world (fs : gmap string (list byte)) (r : list byte) : World :=
  mkWorld fs ∅ r clock 0 [].

(** A PKCS7 object signed at [signingTime] by a certificate that is valid in
    the window [[notBefore, notAfter]], with a signature that is good or
    tampered with.  As in [go.mozilla.org/pkcs7], the signing time is checked
    against the window first, then, only when there is a trust store, the
    chain at the time that is asked, then the signature: without a trust
    store the answer does not depend on the time. *)
Definition envelope (notBefore notAfter signingTime : Time) (good : bool) (signer : Z)
  : pkcs7.PKCS7 :=
  {| pkcs7.verdict := fun truststore t =>
       if (signingTime <? notBefore)%Z || (notAfter <? signingTime)%Z
       then Some "pkcs7: signing time is outside of certificate validity"
       else
         match
           match truststore with
           | None => None
           | Some pool =>
               if existsb (fun c => (x509.SerialNumber c =? signer)%Z) pool then
                 if (t <? notBefore)%Z || (notAfter <? t)%Z
                 then Some "x509: certificate has expired or is not yet valid"
                 else None
               else Some "x509: certificate signed by unknown authority"
           end
         with
         | Some e => Some e
         | None => if good then None else Some "crypto/rsa: verification error"
         end |}.

(** Certificates that differ in their subject attributes only. *)
Definition attr (oid : asn1.ObjectIdentifier) (x : any) : pkix.AttributeTypeAndValue :=
  {| pkix.Type_ := oid; pkix.Value := x |}.

Definition oidCommonName : asn1.ObjectIdentifier := [2; 5; 4; 3].

Definition cert_of_names (names : list pkix.AttributeTypeAndValue) : x509.Certificate :=
  {| x509.Raw := [];
     x509.SerialNumber := 7;
     x509.Subject := {| pkix.CommonName := "APSP:example"; pkix.Names := names |};
     x509.NotBefore := clock 0;
     x509.NotAfter := clock 0 + 365 * 24 * Hour;
     x509.KeyUsage := x509.KeyUsageDigitalSignature;
     x509.ExtKeyUsage := [];
     x509.BasicConstraintsValid := false;
     x509.DNSNames := [] |}.

Definition cn_attr : pkix.AttributeTypeAndValue :=
  attr oidCommonName (any_string "APSP:example").

Definition uid_attr (x : any) : pkix.AttributeTypeAndValue := attr oidASN1UserID x.

Definition cert_topic : x509.Certificate :=
  cert_of_names [cn_attr; uid_attr (any_string "com.apple.mgmt.example");
                 uid_attr (any_string "ignored")].

Definition cert_bad_prefix : x509.Certificate :=
  cert_of_names [uid_attr (any_string "not-valid-prefix");
                 uid_attr (any_string "com.apple.mgmt.example")].

Definition cert_no_topic : x509.Certificate := cert_of_names [cn_attr].

Definition cert_non_text : x509.Certificate :=
  cert_of_names [cn_attr; uid_attr (any_bytes [x63; x6f; x6d]);
                 uid_attr (any_string "com.apple.mgmt.example")].

Definition minutes (n : Z) : Duration := n * 60 * Second.

Definition no_skew : PKCS7Verifier := {| MaxSkew := 0 |}.
Definition skew15 : PKCS7Verifier := {| MaxSkew := minutes 15 |}.


(** Signed by certificate 7: within the validity of the certificate; five
    minutes after the certificate expired; within the validity but tampered
    with. *)
Definition envelope_current : pkcs7.PKCS7 :=
  envelope (clock 0 - minutes 60) (clock 0 + minutes 60) (clock 0 - minutes 1) true 7.

Definition w0 : World := world ∅ [].

(** Key files: one written with a password, one written without. *)
Definition key0 : rsa.PrivateKey :=
  {| rsa.Public := {| rsa.N := 35; rsa.E := 65537 |};
     rsa.D := 5;
     rsa.Primes := [5; 7] |}.

Definition password : list byte := list_byte_of_string "secret".

Definition w_rand : World := world ∅ (bytes_upto 40).

Definition w_key_encrypted : World :=
  snd (@WriteEncryptedPEMRSAKeyFile pem_pkg x509_pkg key0 (Some password) "key.pem" w_rand).

Definition w_key_plain : World :=
  snd (@WritePEMRSAKeyFile pem_pkg x509_pkg key0 "plain.pem" w_rand).

(** Entropy for the key but not for the serial number. *)
Definition w_rand_short : World := world ∅ (bytes_upto 4).

(** A certificate file: one CERTIFICATE block, then bytes that are no block. *)
Definition cert_block : pem.Block :=
  {| pem.Type_ := "CERTIFICATE"; pem.Headers := ∅; pem.Bytes := [x30; x82; x01; x0a] |}.

Definition garbage : list byte := list_byte_of_string "not a PEM block".

Definition w_cert_garbage : World :=
  world {[ "certs.pem" := (pem_text x00 cert_block ++ garbage)%list ]} [].

(** Further files to read.  [der0] is a certificate in the stand-in for DER
    and [cert0] what it parses to. *)
Definition der0 : list byte :=
  (chunk (dec 7) ++ chunk (dec 1767225600) ++ chunk (dec 1798761600)
   ++ list_byte_of_string "example.org")%list.

Definition cert0 : x509.Certificate :=
  {| x509.Raw := der0;
     x509.SerialNumber := 7;
     x509.Subject := {| pkix.CommonName := "example.org"; pkix.Names := [] |};
     x509.NotBefore := Second * 1767225600;
     x509.NotAfter := Second * 1798761600;
     x509.KeyUsage := 5;
     x509.ExtKeyUsage := [x509.ExtKeyUsageServerAuth];
     x509.BasicConstraintsValid := true;
     x509.DNSNames := ["example.org"] |}.

Definition certificate_block (payload : list byte) : pem.Block :=
  {| pem.Type_ := "CERTIFICATE"; pem.Headers := ∅; pem.Bytes := payload |}.

Definition key_block : pem.Block :=
  {| pem.Type_ := "RSA PRIVATE KEY"; pem.Headers := ∅;
     pem.Bytes := MarshalPKCS1PrivateKey key0 |}.

(** One certificate in one block; the same certificate cut in two blocks;
    a block with nothing in it; an empty file; a key file and the same with
    bytes after the block. *)
Definition w_files : World :=
  world
    (<["cert.pem" := pem_text x00 (certificate_block der0)]>
     (<["chain.pem" := (pem_text x00 (certificate_block (take 5 der0))
                        ++ pem_text x00 (certificate_block (drop 5 der0)))%list]>
     (<["none.pem" := pem_text x00 (certificate_block [])]>
     (<["empty.pem" := []]>
     (<["a.pem" := pem_text x00 key_block]>
     (<["b.pem" := (pem_text x00 key_block ++ garbage)%list]> ∅))))))
    (bytes_upto 40).

(** A world in which [locked.pem] exists and cannot be opened for writing. *)
Definition w_locked : World :=
  mkWorld {[ "locked.pem" := [x41] ]} {[ "locked.pem" ]} (bytes_upto 40) clock 0 [].

(** Two CERTIFICATE blocks that hold the two parts of [der0], with bytes
    that are no block between them. *)
Definition w_gap : World :=
  world {[ "gap.pem" := (pem_text x00 (certificate_block (take 5 der0))
                         ++ garbage
                         ++ pem_text x00 (certificate_block (drop 5 der0)))%list ]} [].



(** A world without entropy, in which [key.pem] already holds something. *)
Definition w_dry : World :=
  mkWorld {[ "key.pem" := [x41; x42] ]} ∅ [] clock 0 [].

End Sim.

(** [pem.Decode] takes the blocks [bs] off the input one after the other,
    and the last one leaves no rest.  What [pem.Decode] passes over before a
    block is not seen. *)
Inductive decodes_as `{pem_api} : list byte -> list pem.Block -> Prop :=
| decodes_last data b :
    pem_Decode data = (Some b, []) -> decodes_as data [b]
| decodes_more data b rest bs :
    pem_Decode data = (Some b, rest) ->
    rest <> [] ->
    decodes_as rest bs -> decodes_as data (b :: bs).

(** The text of the error of a PEM block of another type than a key. *)
Definition wrong_type_text (found : string) : string :=
  "expecting PEM type of " ++ rsaPrivateKeyPEMBlockType ++ ", but got " ++ found.

(** The text of the error of a file that cannot be read or opened. *)
Definition no_such_file_text (path : string) : string :=
  "open " ++ path ++ ": no such file or directory".
Definition permission_denied_text (path : string) : string :=
  "open " ++ path ++ ": permission denied".

(** * Properties *)

(** ** Strings, object identifiers, durations *)

Lemma strings_HasPrefix_spec (s prefix : string) :
  strings_HasPrefix s prefix = true <-> begins_with prefix s.
Proof.
  unfold begins_with. revert s.
  induction prefix as [|p prefix IH]; intros s; simpl.
  - split; [intros _; exists s; reflexivity | reflexivity].
  - destruct s as [|c s].
    + split; [discriminate | intros [rest Hr]; discriminate].
    + destruct (Ascii.eqb_spec c p) as [->|Hne].
      * rewrite IH. split; intros [rest Hr]; exists rest.
        -- now rewrite Hr.
        -- now inversion Hr.
      * split; [discriminate | intros [rest Hr]; inversion Hr; contradiction].
Qed.

Lemma strings_Contains_spec (s substr : string) :
  strings_Contains s substr = true <-> occurs_in substr s.
Proof.
  unfold occurs_in.
  induction s as [|c s IH]; simpl.
  - rewrite orb_false_r, strings_HasPrefix_spec. split.
    + intros [rest Hr]. exists "", rest. exact Hr.
    + intros [before [after Hs]]. destruct before; [now exists after|discriminate].
  - rewrite orb_true_iff, strings_HasPrefix_spec, IH. split.
    + intros [[rest Hr] | [before [after Hs]]].
      * exists "", rest. exact Hr.
      * exists (String c before), after. simpl. now rewrite Hs.
    + intros [before [after Hs]]. destruct before as [|c' before]; simpl in Hs.
      * left. now exists after.
      * right. inversion Hs. now exists before, after.
Qed.

Lemma asn1_Equal_spec (oi other : asn1.ObjectIdentifier) :
  asn1.Equal oi other = true <-> oi = other.
Proof.
  revert other. induction oi as [|a oi IH]; intros [|b other]; simpl;
    try (split; [discriminate | intros E; discriminate]); [tauto|].
  destruct (Z.eqb_spec a b) as [->|Hne].
  - rewrite IH. split; [intros -> | intros E; inversion E]; reflexivity.
  - split; [discriminate | intros E; inversion E; contradiction].
Qed.

Lemma int64_wrap_id (z : Z) : - 2 ^ 63 <= z < 2 ^ 63 -> int64_wrap z = z.
Proof.
  intros Hz. unfold int64_wrap. rewrite Z.mod_small; lia.
Qed.


(** ** TopicFromCert *)

Lemma TopicFromCert_range_skip (pre rest : list pkix.AttributeTypeAndValue) :
  Forall (fun a => ~ is_UserID a) pre ->
  TopicFromCert_range (pre ++ rest)%list = TopicFromCert_range rest.
Proof.
  induction 1 as [|a pre Ha _ IH]; simpl; [reflexivity|].
  destruct (asn1.Equal (pkix.Type_ a) oidASN1UserID) eqn:E; [|exact IH].
  apply asn1_Equal_spec in E. contradiction.
Qed.

Lemma TopicFromCert_range_hit (v : pkix.AttributeTypeAndValue)
    (post : list pkix.AttributeTypeAndValue) :
  is_UserID v ->
  TopicFromCert_range (v :: post) =
    let '(uid, ok) := assert_string (pkix.Value v) in
    if ok && strings_HasPrefix uid topic_prefix then (uid, None)
    else ("", Some (invalid_topic_text ++ uid)).
Proof.
  intros Hv. simpl.
  apply asn1_Equal_spec in Hv. now rewrite Hv.
Qed.

(** C9. [TopicFromCert] looks at the subject attributes in their stored
    order and decides on the first one whose type is the UserID object
    identifier: a text value that begins with "com.apple.mgmt" is returned as
    it is; a text value that does not is refused with the invalid-topic error,
    which quotes the value; and when no attribute has the UserID type the
    topic-not-found error is returned. *)
Theorem TopicFromCert_first_UserID (cert : x509.Certificate) :
  (forall pre v post s,
      pkix.Names (x509.Subject cert) = (pre ++ v :: post)%list ->
      Forall (fun a => ~ is_UserID a) pre ->
      is_UserID v ->
      pkix.Value v = any_string s ->
      (begins_with "com.apple.mgmt" s -> TopicFromCert cert = (s, None)) /\
      (~ begins_with "com.apple.mgmt" s ->
         TopicFromCert cert = ("", Some (invalid_topic_text ++ s))))
  /\
  (Forall (fun a => ~ is_UserID a) (pkix.Names (x509.Subject cert)) ->
   TopicFromCert cert = ("", Some topic_not_found_text)).
Proof.
  unfold TopicFromCert. split.
  - intros pre v post s -> Hpre Hv Hs.
    rewrite (TopicFromCert_range_skip _ _ Hpre), (TopicFromCert_range_hit _ _ Hv), Hs.
    simpl assert_string. cbv iota beta. rewrite andb_true_l.
    destruct (strings_HasPrefix s topic_prefix) eqn:E.
    + split; [reflexivity|]. intros Hn. apply strings_HasPrefix_spec in E. contradiction.
    + split; [|reflexivity]. intros Hb. apply strings_HasPrefix_spec in Hb.
      unfold topic_prefix in E. congruence.
  - intros Hall.
    rewrite <- (app_nil_r (pkix.Names (x509.Subject cert))).
    now rewrite (TopicFromCert_range_skip _ _ Hall).
Qed.

(** C10. When the first UserID attribute of the subject holds a value that
    is not text, [TopicFromCert] fails with the invalid-topic error quoting the
    empty string, whatever attributes follow; the error is not the
    topic-not-found one. *)
Theorem TopicFromCert_non_text_UserID (cert : x509.Certificate)
    (pre post : list pkix.AttributeTypeAndValue) (v : pkix.AttributeTypeAndValue) :
  pkix.Names (x509.Subject cert) = (pre ++ v :: post)%list ->
  Forall (fun a => ~ is_UserID a) pre ->
  is_UserID v ->
  (forall s, pkix.Value v <> any_string s) ->
  TopicFromCert cert = ("", Some (invalid_topic_text ++ "")) /\
  snd (TopicFromCert cert) <> Some topic_not_found_text.
Proof.
  intros Hn Hpre Hv Hs. unfold TopicFromCert.
  rewrite Hn, (TopicFromCert_range_skip _ _ Hpre), (TopicFromCert_range_hit _ _ Hv).
  destruct (pkix.Value v) as [s| | |]; [now destruct (Hs s)| | |];
    (split; [reflexivity | discriminate]).
Qed.

Lemma TopicFromCert_first_UserID_witness :
  TopicFromCert Sim.cert_topic = ("com.apple.mgmt.example", None) /\
  TopicFromCert Sim.cert_bad_prefix
    = ("", Some (invalid_topic_text ++ "not-valid-prefix")) /\
  TopicFromCert Sim.cert_no_topic = ("", Some topic_not_found_text).
Proof.
  split; [|split].
  - refine (proj1 (proj1 (TopicFromCert_first_UserID Sim.cert_topic)
              [Sim.cn_attr]
              (Sim.uid_attr (any_string "com.apple.mgmt.example"))
              [Sim.uid_attr (any_string "ignored")]
              "com.apple.mgmt.example" eq_refl _ eq_refl eq_refl) _).
    + repeat constructor. intros E. discriminate E.
    + exists ".example". reflexivity.
  - refine (proj2 (proj1 (TopicFromCert_first_UserID Sim.cert_bad_prefix)
              []
              (Sim.uid_attr (any_string "not-valid-prefix"))
              [Sim.uid_attr (any_string "com.apple.mgmt.example")]
              "not-valid-prefix" eq_refl _ eq_refl eq_refl) _).
    + constructor.
    + intros [rest E]. discriminate E.
  - apply (proj2 (TopicFromCert_first_UserID Sim.cert_no_topic)).
    repeat constructor. intros E. discriminate E.
Defined.

Lemma TopicFromCert_non_text_UserID_witness :
  TopicFromCert Sim.cert_non_text = ("", Some (invalid_topic_text ++ "")) /\
  snd (TopicFromCert Sim.cert_non_text) <> Some topic_not_found_text.
Proof.
  apply (TopicFromCert_non_text_UserID Sim.cert_non_text
           [Sim.cn_attr]
           [Sim.uid_attr (any_string "com.apple.mgmt.example")]
           (Sim.uid_attr (any_bytes [x63; x6f; x6d]))).
  - reflexivity.
  - repeat constructor. intros E. discriminate E.
  - reflexivity.
  - intros s E. discriminate E.
Defined.

(** ** PKCS7Verifier.Verify *)

Lemma Verify_run (v : PKCS7Verifier) (p7 : pkcs7.PKCS7) (w : World) :
  let t1 := Time_Add (wallclock w (ticks w)) (MaxSkew v) in
  let t2 := Time_Add (wallclock w (S (ticks w))) (Duration_neg (MaxSkew v)) in
  Verify v p7 w =
    match pkcs7.verdict p7 None t1 with
    | Some e =>
        if strings_Contains e validity_window_text
        then (pkcs7.verdict p7 None t2,
              mkWorld (files w) (write_denied w) (entropy w) (wallclock w)
                (S (S (ticks w))) ((p7_calls w ++ [(None, t1)]) ++ [(None, t2)])%list)
        else (Some e,
              mkWorld (files w) (write_denied w) (entropy w) (wallclock w)
                (S (ticks w)) (p7_calls w ++ [(None, t1)])%list)
    | None =>
        (None,
         mkWorld (files w) (write_denied w) (entropy w) (wallclock w)
           (S (ticks w)) (p7_calls w ++ [(None, t1)])%list)
    end.
Proof.
  unfold Verify, bind, time_Now, pkcs7.VerifyWithChainAtTime, ret; simpl.
  destruct (pkcs7.verdict p7 None _) as [e|]; [|reflexivity].
  destruct (strings_Contains e validity_window_text); reflexivity.
Qed.




(** C4, as the specification states it, fails: [Verify] has no parameter for
    trust anchors, so anchors that the caller holds cannot reach the
    verification.  For an envelope whose signer is not in the empty trust
    store, the operation of the specification fails with an untrusted-chain
    error where [Verify] succeeds, having asked for one verification with a
    [nil] trust store. *)
Lemma Verify_ignores_trust_anchors :
  fst (verify_with_trust_anchors Sim.no_skew Sim.envelope_current (Some []) Sim.w0)
    = Some "x509: certificate signed by unknown authority" /\
  fst (Verify Sim.no_skew Sim.envelope_current Sim.w0) = None /\
  p7_calls (snd (Verify Sim.no_skew Sim.envelope_current Sim.w0)) = [(None, Sim.clock 0)].
Proof. vm_compute. repeat split; reflexivity. Qed.

(** C4, amended. [Verify] takes the PKCS7 object only.  It behaves as the
    operation of the specification does when no trust anchors are given:
    every verification it asks for carries a [nil] trust store. *)
Theorem Verify_no_trust_anchors (v : PKCS7Verifier) (p7 : pkcs7.PKCS7) (w : World) :
  Verify v p7 w = verify_with_trust_anchors v p7 None w /\
  exists asked,
    p7_calls (snd (Verify v p7 w)) = (p7_calls w ++ asked)%list /\
    Forall (fun c => fst c = None) asked.
Proof.
  split; [reflexivity|].
  rewrite Verify_run. cbv zeta.
  destruct (pkcs7.verdict p7 None _) as [e|].
  - destruct (strings_Contains e validity_window_text); simpl.
    + eexists [_; _]. rewrite <- app_assoc. split; [reflexivity|].
      repeat constructor.
    + eexists [_]. split; [reflexivity|]. repeat constructor.
  - eexists [_]. split; [reflexivity|]. repeat constructor.
Qed.

(** ** The executable instance meets the contracts of the packages *)

Lemma Sim_read_len_chunk (n : nat) (r : list byte) :
  Sim.read_len (repeat x01 n ++ x00 :: r)%list = Some (n, r).
Proof.
  induction n as [|n IH]; simpl; [reflexivity|]. now rewrite IH.
Qed.

Lemma Sim_read_chunk_chunk (l r : list byte) :
  Sim.read_chunk (Sim.chunk l ++ r)%list = Some (l, r).
Proof.
  unfold Sim.read_chunk, Sim.chunk.
  rewrite <- app_assoc, <- app_comm_cons, Sim_read_len_chunk.
  rewrite length_app.
  destruct (Nat.leb_spec (length l) (length l + length r)) as [_|Hlt]; [|lia].
  now rewrite take_app_length, drop_app_length.
Qed.

Lemma Sim_read_len_shorter (d : list byte) :
  forall n r, Sim.read_len d = Some (n, r) -> (length r + n < length d)%nat.
Proof.
  induction d as [|a d IH]; intros n r; simpl; [discriminate|].
  destruct a; try discriminate.
  - intros [= <- <-]. lia.
  - destruct (Sim.read_len d) as [[n' r']|]; [|discriminate].
    intros [= <- <-]. specialize (IH n' r' eq_refl). lia.
Qed.

Lemma Sim_read_chunk_shorter (d l r : list byte) :
  Sim.read_chunk d = Some (l, r) -> (length r < length d)%nat.
Proof.
  unfold Sim.read_chunk.
  destruct (Sim.read_len d) as [[n r0]|] eqn:E; [|discriminate].
  apply Sim_read_len_shorter in E.
  destruct (n <=? length r0)%nat; [|discriminate].
  intros [= _ <-]. rewrite length_drop. lia.
Qed.

Lemma Sim_decode_here_shrinks (d : list byte) (b : pem.Block) (r : list byte) :
  Sim.decode_here d = Some (b, r) -> (length r < length d)%nat.
Proof.
  unfold Sim.decode_here. destruct d as [|flag d1]; [discriminate|].
  destruct (Sim.headers_of_flag flag); [|discriminate].
  destruct (Sim.read_chunk d1) as [[ty d2]|] eqn:E1; [|discriminate].
  destruct (Sim.read_chunk d2) as [[body rest]|] eqn:E2; [|discriminate].
  intros [= _ <-].
  apply Sim_read_chunk_shorter in E1, E2. simpl. lia.
Qed.

Lemma Sim_Decode_cons (c : byte) (d : list byte) :
  Sim.Decode (c :: d) =
    match Sim.decode_here (c :: d) with
    | Some (b, rest) => (Some b, rest)
    | None =>
        match Sim.Decode d with
        | (Some b, rest) => (Some b, rest)
        | (None, _) => (None, c :: d)
        end
    end.
Proof. reflexivity. Qed.

Lemma Sim_Decode_shrinks (d : list byte) (b : pem.Block) (r : list byte) :
  Sim.Decode d = (Some b, r) -> (length r < length d)%nat.
Proof.
  revert b r. induction d as [|c d IH]; intros b r; [discriminate|].
  rewrite Sim_Decode_cons.
  destruct (Sim.decode_here (c :: d)) as [[b0 r0]|] eqn:Ehere.
  - intros [= <- <-]. now apply Sim_decode_here_shrinks in Ehere.
  - destruct (Sim.Decode d) as [[b1|] r1]; [|discriminate].
    intros [= <- <-]. specialize (IH b1 r1 eq_refl). simpl. lia.
Qed.

Lemma Sim_Decode_pem_text (flag : byte) (h : gmap string string) (b : pem.Block) :
  Sim.headers_of_flag flag = Some h ->
  pem.Headers b = h ->
  Sim.Decode (Sim.pem_text flag b) = (Some b, []).
Proof.
  intros Hflag Hh. unfold Sim.pem_text. rewrite Sim_Decode_cons.
  unfold Sim.decode_here.
  rewrite Hflag, Sim_read_chunk_chunk.
  rewrite <- (app_nil_r (Sim.chunk (pem.Bytes b))), Sim_read_chunk_chunk.
  rewrite string_of_list_byte_of_string. destruct b; simpl in *. now subst.
Qed.

Lemma Sim_Decode_Encode (b : pem.Block) (text : list byte) :
  Sim.Encode b = Ok text -> Sim.Decode text = (Some b, []).
Proof.
  unfold Sim.Encode.
  destruct (decide (pem.Headers b = ∅)) as [H0|_].
  - intros [= <-]. now apply (Sim_Decode_pem_text x00 ∅).
  - destruct (decide (pem.Headers b = Sim.encrypted_headers)) as [H1|_]; [|discriminate].
    intros [= <-]. now apply (Sim_Decode_pem_text x01 Sim.encrypted_headers).
Qed.

Lemma Sim_EncryptPEMBlock_block (r : list byte) (blockType : string)
    (data password : list byte) (alg : x509.PEMCipher) (b : pem.Block) (r' : list byte) :
  Sim.EncryptPEMBlock r blockType data password alg = (Ok b, r') ->
  b = {| pem.Type_ := blockType;
         pem.Headers := Sim.encrypted_headers;
         pem.Bytes := Sim.derive_key password :: rev data |}.
Proof.
  unfold Sim.EncryptPEMBlock. destruct (length r <? 8)%nat; [discriminate|].
  now intros [= <- _].
Qed.

Lemma Sim_undec_dec (z : Z) : Sim.undec (Sim.dec z) = Some z.
Proof.
  unfold Sim.undec, Sim.dec.
  rewrite string_of_list_byte_of_string, NilEmpty.isi. simpl.
  now rewrite DecimalZ.of_to.
Qed.

(** ** Reading certificates *)

Section ReadCertificates.

Context {PEM : pem_api} {X509 : x509_api}.

(** A block that [pem.Decode] returns has been taken off the input. *)
Hypothesis pem_Decode_consumes :
  forall d b r, pem_Decode d = (Some b, r) -> (length r < length d)%nat.

Lemma ReadPEMCertificatesFile_for_bad (data : list byte) :
  meets_bad_block data ->
  forall fuel asn1data,
    (length data < fuel)%nat ->
    ReadPEMCertificatesFile_for fuel data asn1data = Some (Err certificate_block_text).
Proof.
  induction 1 as [data Hnone | data b Hsome Hty | data b rest Hdec Hty Hrest _ IH];
    intros [|fuel] asn1data Hfuel; try lia; simpl.
  - destruct (pem_Decode data) as [blk rest']. simpl in Hnone. now subst blk.
  - destruct (pem_Decode data) as [blk rest']. simpl in Hsome. subst blk.
    destruct (String.eqb_spec (pem.Type_ b) certificatePEMBlockType); [contradiction|].
    reflexivity.
  - rewrite Hdec, Hty, String.eqb_refl. simpl.
    destruct rest as [|c rest]; [contradiction|]. simpl.
    apply IH. apply pem_Decode_consumes in Hdec. simpl in *. lia.
Qed.

(** The loop of [ReadPEMCertificatesFile] ends within the turns it is given. *)
Lemma ReadPEMCertificatesFile_for_ends (fuel : nat) :
  forall data asn1data,
    (length data < fuel)%nat ->
    ReadPEMCertificatesFile_for fuel data asn1data <> None.
Proof.
  induction fuel as [|fuel IH]; intros data asn1data Hfuel; [lia|]. simpl.
  destruct (pem_Decode data) as [[b|] rest] eqn:Hdec; [|discriminate].
  destruct (negb _); [discriminate|].
  destruct (Nat.eqb (length rest) 0); [discriminate|].
  apply IH. apply pem_Decode_consumes in Hdec. lia.
Qed.

Lemma ReadPEMCertificatesFile_returns (path : string) (w : World) :
  fst (ReadPEMCertificatesFile path w) <> None.
Proof.
  unfold ReadPEMCertificatesFile, bind, ioutil_ReadFile, ret.
  destruct (files w !! path) as [pemData|]; [|discriminate].
  assert (Hends := ReadPEMCertificatesFile_for_ends (S (length pemData)) pemData []).
  destruct (ReadPEMCertificatesFile_for _ _ _) as [[asn1data|e]|].
  - destruct (x509_ParseCertificates asn1data); discriminate.
  - discriminate.
  - exfalso. apply Hends; [lia | reflexivity].
Qed.

(** C6, amended. Reading a certificate file fails with the PEM-block error
    as soon as, before the end of the input, [pem.Decode] finds no block in
    what remains or the next block it finds is not a CERTIFICATE; no
    certificates are returned.  Bytes that [pem.Decode] skips before a block
    are not seen by the reader and are no error.  In particular a
    CERTIFICATE block followed by bytes in which no block is found gives the
    error and not the certificates scanned so far. *)
Theorem ReadPEMCertificatesFile_strict (path : string) (w : World) (pemData : list byte) :
  files w !! path = Some pemData ->
  (meets_bad_block pemData ->
   fst (ReadPEMCertificatesFile path w) = Some ([], Some certificate_block_text))
  /\
  (forall b garbage,
     pem_Decode pemData = (Some b, garbage) ->
     pem.Type_ b = "CERTIFICATE" ->
     garbage <> [] ->
     fst (pem_Decode garbage) = None ->
     fst (ReadPEMCertificatesFile path w) = Some ([], Some certificate_block_text)).
Proof.
  intros Hfile.
  assert (Hbad : meets_bad_block pemData ->
    fst (ReadPEMCertificatesFile path w) = Some ([], Some certificate_block_text)).
  { intros Hmeets.
    unfold ReadPEMCertificatesFile, bind, ioutil_ReadFile, ret. rewrite Hfile.
    rewrite (ReadPEMCertificatesFile_for_bad _ Hmeets) by lia. reflexivity. }
  split; [exact Hbad|].
  intros b garbage Hdec Hty Hgarbage Hnone.
  apply Hbad. apply (bad_later _ b garbage); try assumption.
  now apply bad_missing.
Qed.

End ReadCertificates.

(** ** Reading and writing keys *)

Section KeyFiles.

Context {PEM : pem_api} {X509 : x509_api}.

Lemma ReadEncryptedPEMRSAKeyFile_run (path : string) (password : option (list byte))
    (w : World) (pemData : list byte) (pemBlock : pem.Block) :
  files w !! path = Some pemData ->
  fst (pem_Decode pemData) = Some pemBlock ->
  pem.Type_ pemBlock = "RSA PRIVATE KEY" ->
  ReadEncryptedPEMRSAKeyFile path password w =
    (if x509_IsEncryptedPEMBlock pemBlock then
       match password with
       | None => (None, Some missing_password_text)
       | Some pw =>
           match x509_DecryptPEMBlock pemBlock pw with
           | Err err => (None, Some err)
           | Ok derBytes => pair_of_result (x509_ParsePKCS1PrivateKey derBytes)
           end
       end
     else
       match password with
       | Some _ => (None, Some unexpected_password_text)
       | None => pair_of_result (x509_ParsePKCS1PrivateKey (pem.Bytes pemBlock))
       end, w).
Proof.
  intros Hfile Hdec Hty.
  unfold ReadEncryptedPEMRSAKeyFile, bind, ioutil_ReadFile, ret.
  rewrite Hfile, Hdec, Hty. simpl.
  destruct (x509_IsEncryptedPEMBlock pemBlock), password as [pw|]; try reflexivity.
  destruct (x509_DecryptPEMBlock pemBlock pw); reflexivity.
Qed.

(** C5. For a key file whose block is an RSA PRIVATE KEY block: if the
    block is encrypted and no password is given, reading fails with the
    missing-password error; if the block is not encrypted and a password is
    given, reading fails with the unexpected-password error.  In both cases
    no key is returned. *)
Theorem ReadEncryptedPEMRSAKeyFile_password_mismatch (path : string) (w : World)
    (pemData : list byte) (pemBlock : pem.Block) :
  files w !! path = Some pemData ->
  fst (pem_Decode pemData) = Some pemBlock ->
  pem.Type_ pemBlock = "RSA PRIVATE KEY" ->
  (x509_IsEncryptedPEMBlock pemBlock = true ->
   fst (ReadEncryptedPEMRSAKeyFile path None w)
     = (None, Some "no supplied password for encrypted PEM"))
  /\
  (x509_IsEncryptedPEMBlock pemBlock = false ->
   forall password,
     fst (ReadEncryptedPEMRSAKeyFile path (Some password) w)
       = (None, Some "supplied PEM password, but not encrypted")).
Proof.
  intros Hfile Hdec Hty. split.
  - intros Henc.
    rewrite (ReadEncryptedPEMRSAKeyFile_run _ _ _ _ _ Hfile Hdec Hty), Henc.
    reflexivity.
  - intros Hplain password.
    rewrite (ReadEncryptedPEMRSAKeyFile_run _ _ _ _ _ Hfile Hdec Hty), Hplain.
    reflexivity.
Qed.



(** What the helpers rely on from [encoding/pem] and from the cipher of
    [crypto/x509]. *)
Hypothesis pem_Decode_Encode :
  forall b text, pem_Encode b = Ok text -> pem_Decode text = (Some b, []).

Hypothesis EncryptPEMBlock_sound :
  forall r blockType data password alg b r',
    x509_EncryptPEMBlock r blockType data password alg = (Ok b, r') ->
    pem.Type_ b = blockType /\
    x509_IsEncryptedPEMBlock b = true /\
    x509_DecryptPEMBlock b password = Ok data.


End KeyFiles.

(** C6, as the specification states it, fails: [pem.Decode] skips the bytes
    that come before a block, so bytes that are no PEM block between two
    CERTIFICATE blocks are passed over and the certificates are returned. *)
Lemma ReadPEMCertificatesFile_skips_garbage :
  files Sim.w_gap !! "gap.pem"
    = Some (Sim.pem_text x00 (Sim.certificate_block (take 5 Sim.der0))
            ++ Sim.garbage
            ++ Sim.pem_text x00 (Sim.certificate_block (drop 5 Sim.der0)))%list /\
  Sim.Decode Sim.garbage = (None, Sim.garbage) /\
  fst (@ReadPEMCertificatesFile Sim.pem_pkg Sim.x509_pkg "gap.pem" Sim.w_gap)
    = Some ([Sim.cert0], None).
Proof.
  repeat split; vm_compute; reflexivity.
Qed.

Lemma ReadPEMCertificatesFile_strict_witness :
  fst (@ReadPEMCertificatesFile Sim.pem_pkg Sim.x509_pkg "certs.pem" Sim.w_cert_garbage)
    = Some ([], Some certificate_block_text).
Proof.
  refine (proj2 (@ReadPEMCertificatesFile_strict Sim.pem_pkg Sim.x509_pkg
                   Sim_Decode_shrinks "certs.pem" Sim.w_cert_garbage
                   (Sim.pem_text x00 Sim.cert_block ++ Sim.garbage)%list _)
                Sim.cert_block Sim.garbage _ _ _ _).
  - vm_compute. reflexivity.
  - vm_compute. reflexivity.
  - reflexivity.
  - discriminate.
  - vm_compute. reflexivity.
Defined.

Lemma ReadEncryptedPEMRSAKeyFile_password_mismatch_witness :
  fst (@ReadEncryptedPEMRSAKeyFile Sim.pem_pkg Sim.x509_pkg "key.pem" None
         Sim.w_key_encrypted)
    = (None, Some "no supplied password for encrypted PEM") /\
  fst (@ReadEncryptedPEMRSAKeyFile Sim.pem_pkg Sim.x509_pkg "plain.pem"
         (Some Sim.password) Sim.w_key_plain)
    = (None, Some "supplied PEM password, but not encrypted").
Proof.
  split.
  - refine (proj1 (@ReadEncryptedPEMRSAKeyFile_password_mismatch Sim.pem_pkg Sim.x509_pkg
                     "key.pem" Sim.w_key_encrypted
                     (default [] (files Sim.w_key_encrypted !! "key.pem"))
                     {| pem.Type_ := "RSA PRIVATE KEY";
                        pem.Headers := Sim.encrypted_headers;
                        pem.Bytes := Sim.derive_key Sim.password
                                     :: rev (Sim.MarshalPKCS1PrivateKey Sim.key0) |}
                     _ _ _) _); vm_compute; reflexivity.
  - refine (proj2 (@ReadEncryptedPEMRSAKeyFile_password_mismatch Sim.pem_pkg Sim.x509_pkg
                     "plain.pem" Sim.w_key_plain
                     (default [] (files Sim.w_key_plain !! "plain.pem"))
                     {| pem.Type_ := "RSA PRIVATE KEY";
                        pem.Headers := ∅;
                        pem.Bytes := Sim.MarshalPKCS1PrivateKey Sim.key0 |}
                     _ _ _) _ Sim.password); vm_compute; reflexivity.
Defined.

Lemma Sim_EncryptPEMBlock_sound (r : list byte) (blockType : string)
    (data password : list byte) (alg : x509.PEMCipher) (b : pem.Block) (r' : list byte) :
  Sim.EncryptPEMBlock r blockType data password alg = (Ok b, r') ->
  pem.Type_ b = blockType /\
  Sim.IsEncryptedPEMBlock b = true /\
  Sim.DecryptPEMBlock b password = Ok data.
Proof.
  intros Henc. apply Sim_EncryptPEMBlock_block in Henc. subst b.
  repeat split. unfold Sim.DecryptPEMBlock. simpl.
  destruct (decide (Sim.derive_key password = Sim.derive_key password));
    [|contradiction].
  now rewrite rev_involutive.
Qed.



(** ** SimpleSelfSignedRSAKeypair *)

Lemma validity_duration_in_range (days : Z) :
  - max_days <= days <= max_days ->
  Duration_mul (Duration_mul (Duration_of_int days) 24) Hour = days * (24 * Hour).
Proof.
  unfold max_days, Duration_mul, Duration_of_int, Hour, Second. intros Hdays.
  rewrite (int64_wrap_id days) by lia.
  rewrite (int64_wrap_id (days * 24)) by lia.
  rewrite int64_wrap_id by lia. lia.
Qed.

Lemma truncate_to_add (g t k : Z) :
  0 < g -> (g | k) -> truncate_to g (t + k) = truncate_to g t + k.
Proof.
  intros Hg [m ->]. unfold truncate_to.
  rewrite Z.div_add by lia. lia.
Qed.

Section Issuer.

Context {RAND : rand_api} {X509 : x509_api}.

Lemma SimpleSelfSignedRSAKeypair_success (cn : string) (days : Z) (w : World)
    (key : option rsa.PrivateKey) (cert : x509.Certificate) :
  fst (SimpleSelfSignedRSAKeypair cn days w) = (key, Some cert, None) ->
  exists k serialNumber r der r',
    key = Some k /\
    x509_CreateCertificate r
      (template_of cn days serialNumber (wallclock w (ticks w)))
      (template_of cn days serialNumber (wallclock w (ticks w)))
      (rsa.Public k) k = (Ok der, r') /\
    x509_ParseCertificate der = Ok cert.
Proof.
  unfold SimpleSelfSignedRSAKeypair, GenerateRandomCertificateSerialNumber,
    bind, with_rand, time_Now, ret. simpl.
  destruct (rsa_GenerateKey (entropy w) 2048) as [[k|e] r1]; simpl; [|discriminate].
  destruct (rand_Int r1 _) as [[serialNumber|e] r2]; simpl; [|discriminate].
  destruct (x509_CreateCertificate r2 _ _ _ _) as [[der|e] r3] eqn:Hcreate; simpl;
    [|discriminate].
  destruct (x509_ParseCertificate der) as [c|e] eqn:Hparse; simpl; [|discriminate].
  intros [= <- <-]. now exists k, serialNumber, r2, der, r3.
Qed.

(** C3, amended. When [SimpleSelfSignedRSAKeypair] fails it returns no
    certificate.  If generating the key is what failed, it returns no key,
    and the error of [rsa.GenerateKey]; if a later step failed, it returns,
    next to the error, the key that [rsa.GenerateKey] generated. *)
Theorem SimpleSelfSignedRSAKeypair_failure (cn : string) (days : Z) (w : World)
    (key : option rsa.PrivateKey) (cert : option x509.Certificate) (e : error) :
  fst (SimpleSelfSignedRSAKeypair cn days w) = (key, cert, Some e) ->
  cert = None /\
  ((exists r, rsa_GenerateKey (entropy w) 2048 = (Err e, r) /\ key = None) \/
   (exists k r, rsa_GenerateKey (entropy w) 2048 = (Ok k, r) /\ key = Some k)).
Proof.
  unfold SimpleSelfSignedRSAKeypair, GenerateRandomCertificateSerialNumber,
    bind, with_rand, time_Now, ret. simpl.
  destruct (rsa_GenerateKey (entropy w) 2048) as [[k|e1] r1]; simpl.
  - assert (Hkey : forall key', key' = Some k ->
        (exists r, (Ok k, r1) = (@Err rsa.PrivateKey e, r) /\ key' = None) \/
        (exists k' r, (Ok k, r1) = (Ok k', r) /\ key' = Some k')).
    { intros key' ->. right. now exists k, r1. }
    destruct (rand_Int r1 _) as [[serialNumber|e2] r2]; simpl.
    + destruct (x509_CreateCertificate r2 _ _ _ _) as [[der|e3] r3]; simpl.
      * destruct (x509_ParseCertificate der) as [c|e4]; simpl; [discriminate|].
        intros [= <- <- _]. split; [reflexivity | now apply Hkey].
      * intros [= <- <- _]. split; [reflexivity | now apply Hkey].
    + intros [= <- <- _]. split; [reflexivity | now apply Hkey].
  - intros [= <- <- <-]. split; [reflexivity|]. left. now exists r1.
Qed.

(** What the certificate that [x509.ParseCertificate] gives keeps of the
    template [x509.CreateCertificate] was given: the validity, at the
    granularity [g] of the encoding of times (a divisor of the second). *)
Variable g : Z.
Hypothesis g_positive : 0 < g.
Hypothesis g_divides_Second : (g | Second).
Hypothesis validity_carried :
  forall r template parent pub priv der r' cert,
    x509_CreateCertificate r template parent pub priv = (Ok der, r') ->
    x509_ParseCertificate der = Ok cert ->
    x509.NotBefore cert = truncate_to g (x509.NotBefore template) /\
    x509.NotAfter cert = truncate_to g (x509.NotAfter template).

Lemma g_divides_days (days : Z) : (g | days * (24 * Hour)).
Proof.
  destruct g_divides_Second as [m Hm]. exists (days * 24 * 3600 * m).
  unfold Hour. rewrite Hm. lia.
Qed.

(** C7, amended. For a number of days between -106751 and 106751, the
    certificate that [SimpleSelfSignedRSAKeypair] returns is valid for exactly
    that many days of 24 hours, from the clock reading taken when it was
    generated (as the encoding of the certificate keeps it). *)
Theorem SimpleSelfSignedRSAKeypair_validity (cn : string) (days : Z) (w : World)
    (key : option rsa.PrivateKey) (cert : x509.Certificate) :
  - 106751 <= days <= 106751 ->
  fst (SimpleSelfSignedRSAKeypair cn days w) = (key, Some cert, None) ->
  x509.NotAfter cert - x509.NotBefore cert = days * (24 * Hour) /\
  x509.NotBefore cert = truncate_to g (wallclock w (ticks w)).
Proof.
  intros Hdays Hrun.
  apply SimpleSelfSignedRSAKeypair_success in Hrun
    as [k [serialNumber [r [der [r' [_ [Hcreate Hparse]]]]]]].
  destruct (validity_carried _ _ _ _ _ _ _ _ Hcreate Hparse) as [Hnb Hna].
  simpl in Hnb, Hna. rewrite Hnb, Hna. split; [|reflexivity].
  rewrite (validity_duration_in_range days Hdays). unfold Time_Add.
  rewrite (truncate_to_add g _ _ g_positive (g_divides_days days)). lia.
Qed.

(** C2, amended. For a number of days between 1 and 106751, the certificate
    that [SimpleSelfSignedRSAKeypair] returns has its NotAfter strictly after
    its NotBefore. *)
Theorem SimpleSelfSignedRSAKeypair_NotAfter (cn : string) (days : Z) (w : World)
    (key : option rsa.PrivateKey) (cert : x509.Certificate) :
  1 <= days <= 106751 ->
  fst (SimpleSelfSignedRSAKeypair cn days w) = (key, Some cert, None) ->
  x509.NotBefore cert < x509.NotAfter cert.
Proof.
  intros Hdays Hrun.
  apply SimpleSelfSignedRSAKeypair_success in Hrun
    as [k [serialNumber [r [der [r' [_ [Hcreate Hparse]]]]]]].
  destruct (validity_carried _ _ _ _ _ _ _ _ Hcreate Hparse) as [Hnb Hna].
  simpl in Hnb, Hna. rewrite Hnb, Hna.
  rewrite (validity_duration_in_range days) by (unfold max_days; lia).
  unfold Time_Add.
  rewrite (truncate_to_add g _ _ g_positive (g_divides_days days)).
  unfold Hour, Second. lia.
Qed.

End Issuer.

Lemma Sim_validity_carried (r : list byte) (template parent : x509.Certificate)
    (pub : rsa.PublicKey) (priv : rsa.PrivateKey) (der r' : list byte)
    (cert : x509.Certificate) :
  Sim.CreateCertificate r template parent pub priv = (Ok der, r') ->
  Sim.ParseCertificate der = Ok cert ->
  x509.NotBefore cert = truncate_to Second (x509.NotBefore template) /\
  x509.NotAfter cert = truncate_to Second (x509.NotAfter template).
Proof.
  unfold Sim.CreateCertificate.
  destruct (x509.SerialNumber template <? 0)%Z; [discriminate|].
  intros [= <- _]. unfold Sim.ParseCertificate.
  rewrite !Sim_read_chunk_chunk, !Sim_undec_dec.
  intros [= <-]. split; reflexivity.
Qed.

Lemma SimpleSelfSignedRSAKeypair_failure_witness :
  fst (@SimpleSelfSignedRSAKeypair Sim.rand_pkg Sim.x509_pkg "example.org" 365
         Sim.w_rand_short)
    = (Some {| rsa.Public := {| rsa.N := 35; rsa.E := 65537 |};
               rsa.D := 1;
               rsa.Primes := [5; 7] |},
       None, Some "unexpected EOF")
  /\
  ((None : option x509.Certificate) = None /\
   ((exists r,
       Sim.GenerateKey (entropy Sim.w_rand_short) 2048 = (Err "unexpected EOF", r) /\
       Some {| rsa.Public := {| rsa.N := 35; rsa.E := 65537 |};
               rsa.D := 1;
               rsa.Primes := [5; 7] |} = None) \/
    (exists k r,
       Sim.GenerateKey (entropy Sim.w_rand_short) 2048 = (Ok k, r) /\
       Some {| rsa.Public := {| rsa.N := 35; rsa.E := 65537 |};
               rsa.D := 1;
               rsa.Primes := [5; 7] |} = Some k))).
Proof.
  assert (Hrun :
    fst (@SimpleSelfSignedRSAKeypair Sim.rand_pkg Sim.x509_pkg "example.org" 365
           Sim.w_rand_short)
      = (Some {| rsa.Public := {| rsa.N := 35; rsa.E := 65537 |};
                 rsa.D := 1;
                 rsa.Primes := [5; 7] |},
         None, Some "unexpected EOF")) by (vm_compute; reflexivity).
  split; [exact Hrun|].
  exact (@SimpleSelfSignedRSAKeypair_failure Sim.rand_pkg Sim.x509_pkg
           "example.org" 365 Sim.w_rand_short _ _ _ Hrun).
Defined.

(** C3, as the specification states it, fails: when the serial number
    cannot be drawn, the key that was generated is returned next to the
    error. *)
Lemma SimpleSelfSignedRSAKeypair_key_with_error :
  exists key e,
    fst (@SimpleSelfSignedRSAKeypair Sim.rand_pkg Sim.x509_pkg "example.org" 365
           Sim.w_rand_short) = (Some key, None, Some e).
Proof. vm_compute. eexists. eexists. reflexivity. Qed.

Lemma SimpleSelfSignedRSAKeypair_validity_witness :
  exists key cert,
    fst (@SimpleSelfSignedRSAKeypair Sim.rand_pkg Sim.x509_pkg "example.org" 365
           Sim.w_rand) = (key, Some cert, None) /\
    x509.NotAfter cert - x509.NotBefore cert = 365 * (24 * Hour) /\
    x509.NotBefore cert = truncate_to Second (Sim.clock 0).
Proof.
  assert (Hrun : exists key cert,
    fst (@SimpleSelfSignedRSAKeypair Sim.rand_pkg Sim.x509_pkg "example.org" 365
           Sim.w_rand) = (key, Some cert, None)).
  { vm_compute. eexists. eexists. reflexivity. }
  destruct Hrun as [key [cert Hrun]]. exists key, cert. split; [exact Hrun|].
  apply (@SimpleSelfSignedRSAKeypair_validity Sim.rand_pkg Sim.x509_pkg Second
           eq_refl (Z.divide_refl Second) Sim_validity_carried
           "example.org" 365 Sim.w_rand key cert); [lia | exact Hrun].
Defined.

(** C7, as the specification states it, fails: 106752 days of nanoseconds
    do not fit a [Duration]; the product wraps around and the certificate
    expires before it begins. *)
Lemma SimpleSelfSignedRSAKeypair_days_overflow :
  exists key cert,
    fst (@SimpleSelfSignedRSAKeypair Sim.rand_pkg Sim.x509_pkg "example.org" 106752
           Sim.w_rand) = (Some key, Some cert, None) /\
    x509.NotAfter cert - x509.NotBefore cert <> 106752 * (24 * Hour) /\
    x509.NotAfter cert < x509.NotBefore cert.
Proof.
  vm_compute. eexists. eexists. split; [reflexivity|].
  split; [discriminate | reflexivity].
Qed.

Lemma SimpleSelfSignedRSAKeypair_NotAfter_witness :
  exists key cert,
    fst (@SimpleSelfSignedRSAKeypair Sim.rand_pkg Sim.x509_pkg "example.org" 1
           Sim.w_rand) = (key, Some cert, None) /\
    x509.NotBefore cert < x509.NotAfter cert.
Proof.
  assert (Hrun : exists key cert,
    fst (@SimpleSelfSignedRSAKeypair Sim.rand_pkg Sim.x509_pkg "example.org" 1
           Sim.w_rand) = (key, Some cert, None)).
  { vm_compute. eexists. eexists. reflexivity. }
  destruct Hrun as [key [cert Hrun]]. exists key, cert. split; [exact Hrun|].
  apply (@SimpleSelfSignedRSAKeypair_NotAfter Sim.rand_pkg Sim.x509_pkg Second
           eq_refl (Z.divide_refl Second) Sim_validity_carried
           "example.org" 1 Sim.w_rand key cert); [lia | exact Hrun].
Defined.

(** C2, as the specification states it, fails: for zero days the
    certificate is issued with NotAfter equal to NotBefore. *)
Lemma SimpleSelfSignedRSAKeypair_zero_days :
  exists key cert,
    fst (@SimpleSelfSignedRSAKeypair Sim.rand_pkg Sim.x509_pkg "example.org" 0
           Sim.w_rand) = (Some key, Some cert, None) /\
    x509.NotAfter cert = x509.NotBefore cert /\
    ~ x509.NotBefore cert < x509.NotAfter cert.
Proof.
  vm_compute. eexists. eexists. split; [reflexivity|].
  split; [reflexivity | discriminate].
Qed.

(** * Further properties of the helpers *)

(** ** TopicFromCert *)

(** X1. A topic that [TopicFromCert] returns begins with "com.apple.mgmt"
    and is the text value of a UserID attribute of the subject; when it
    fails, the string it returns is empty and the error is the not-found
    error or an invalid-topic error. *)
Theorem TopicFromCert_sound (cert : x509.Certificate) :
  (forall topic,
     TopicFromCert cert = (topic, None) ->
     begins_with "com.apple.mgmt" topic /\
     exists v, In v (pkix.Names (x509.Subject cert)) /\ is_UserID v /\
               pkix.Value v = any_string topic)
  /\
  (forall s e,
     TopicFromCert cert = (s, Some e) ->
     s = "" /\ (e = topic_not_found_text \/ begins_with invalid_topic_text e)).
Proof.
  unfold TopicFromCert.
  induction (pkix.Names (x509.Subject cert)) as [|a names [IHok IHerr]];
    cbn -[strings_HasPrefix].
  - split; [discriminate|]. intros s e [= <- <-]. split; [reflexivity | now left].
  - destruct (asn1.Equal (pkix.Type_ a) oidASN1UserID) eqn:Ha.
    + apply asn1_Equal_spec in Ha.
      destruct (pkix.Value a) as [t| | |] eqn:Hv; cbn -[strings_HasPrefix].
      * destruct (strings_HasPrefix t topic_prefix) eqn:Hp; split.
        -- intros topic [= <-]. split; [now apply strings_HasPrefix_spec in Hp|].
           exists a. repeat split; [now left | exact Ha | exact Hv].
        -- discriminate.
        -- discriminate.
        -- intros s e [= <- <-]. split; [reflexivity|]. right. now exists t.
      * split; [discriminate|]. intros s e [= <- <-]. split; [reflexivity|].
        right. now exists "".
      * split; [discriminate|]. intros s e [= <- <-]. split; [reflexivity|].
        right. now exists "".
      * split; [discriminate|]. intros s e [= <- <-]. split; [reflexivity|].
        right. now exists "".
    + split; [|exact IHerr].
      intros topic Hrun. destruct (IHok topic Hrun) as [Hb [v [Hin Hv]]].
      split; [exact Hb|]. exists v. split; [now right | exact Hv].
Qed.

Lemma TopicFromCert_sound_witness :
  begins_with "com.apple.mgmt" "com.apple.mgmt.example" /\
  exists v, In v (pkix.Names (x509.Subject Sim.cert_topic)) /\ is_UserID v /\
            pkix.Value v = any_string "com.apple.mgmt.example".
Proof.
  apply (proj1 (TopicFromCert_sound Sim.cert_topic)). vm_compute. reflexivity.
Defined.

(** ** PKCS7Verifier.Verify *)

(** X2. [Verify] succeeds only if the PKCS7 object verifies, with no trust
    store, at the first clock reading plus [MaxSkew] or at the second one
    moved by [-MaxSkew]; and an error it returns is the error of the first
    verification when that is not of the validity-window class, and of the
    second verification otherwise. *)
Theorem Verify_sound (v : PKCS7Verifier) (p7 : pkcs7.PKCS7) (w : World) :
  let t1 := wallclock w (ticks w) + MaxSkew v in
  let t2 := Time_Add (wallclock w (S (ticks w))) (Duration_neg (MaxSkew v)) in
  (fst (Verify v p7 w) = None ->
   pkcs7.verdict p7 None t1 = None \/ pkcs7.verdict p7 None t2 = None)
  /\
  (forall e, fst (Verify v p7 w) = Some e ->
   (pkcs7.verdict p7 None t1 = Some e /\ ~ validity_window_failure e) \/
   (exists e1, pkcs7.verdict p7 None t1 = Some e1 /\ validity_window_failure e1 /\
               pkcs7.verdict p7 None t2 = Some e)).
Proof.
  intros t1 t2. rewrite Verify_run. cbv zeta.
  change (Time_Add (wallclock w (ticks w)) (MaxSkew v)) with t1. fold t2.
  destruct (pkcs7.verdict p7 None t1) as [e1|] eqn:H1.
  - destruct (strings_Contains e1 validity_window_text) eqn:Hc; simpl.
    + apply strings_Contains_spec in Hc. split.
      * intros H2. right. exact H2.
      * intros e H2. right. exists e1.
        split; [reflexivity | split; [exact Hc | exact H2]].
    + split; [discriminate|]. intros e [= <-]. left. split; [reflexivity|].
      intros Hw. apply strings_Contains_spec in Hw. congruence.
  - simpl. split; [intros _; left; reflexivity | discriminate].
Qed.

Lemma Verify_sound_witness :
  pkcs7.verdict Sim.envelope_current None (Sim.clock 0 + MaxSkew Sim.skew15) = None \/
  pkcs7.verdict Sim.envelope_current None
    (Time_Add (Sim.clock 1) (Duration_neg (MaxSkew Sim.skew15))) = None.
Proof.
  apply (proj1 (Verify_sound Sim.skew15 Sim.envelope_current Sim.w0)).
  vm_compute. reflexivity.
Defined.

(** ** Reading files *)

Section Readers.

Context {PEM : pem_api} {X509 : x509_api}.

(** X3. Reading a certificate file or a key file changes nothing: the
    files, the clock, the entropy and the record of verifications are as they
    were. *)
Theorem readers_leave_the_world (path : string) (password : option (list byte))
    (w : World) :
  snd (ReadPEMCertificatesFile path w) = w /\
  snd (ReadPEMCertificateFile path w) = w /\
  snd (ReadEncryptedPEMRSAKeyFile path password w) = w /\
  snd (ReadPEMRSAKeyFile path w) = w.
Proof.
  assert (Hcerts : snd (ReadPEMCertificatesFile path w) = w).
  { unfold ReadPEMCertificatesFile, bind, ioutil_ReadFile, ret.
    destruct (files w !! path) as [pemData|]; [|reflexivity].
    destruct (ReadPEMCertificatesFile_for _ _ _) as [[asn1data|e]|]; try reflexivity.
    destruct (x509_ParseCertificates asn1data); reflexivity. }
  assert (Hkey : forall pw, snd (ReadEncryptedPEMRSAKeyFile path pw w) = w).
  { intros pw. unfold ReadEncryptedPEMRSAKeyFile, bind, ioutil_ReadFile, ret.
    destruct (files w !! path) as [pemData|]; [|reflexivity].
    destruct (fst (pem_Decode pemData)) as [b|]; [|reflexivity].
    destruct (negb _); [reflexivity|].
    destruct (x509_IsEncryptedPEMBlock b), pw as [pw|]; try reflexivity.
    destruct (x509_DecryptPEMBlock b pw); reflexivity. }
  repeat split; [exact Hcerts | | apply Hkey | apply Hkey].
  unfold ReadPEMCertificateFile, bind.
  destruct (ReadPEMCertificatesFile path w) as [r w1]. simpl in Hcerts. subst w1.
  destruct r as [[certs [e|]]|]; try reflexivity.
  destruct certs as [|c [|c' certs]]; reflexivity.
Qed.

(** X4. When the file does not exist, each reader returns the error of
    [ioutil.ReadFile] and neither certificates nor a key. *)
Theorem readers_missing_file (path : string) (w : World) :
  files w !! path = None ->
  fst (ReadPEMCertificatesFile path w) = Some ([], Some (no_such_file_text path)) /\
  fst (ReadPEMCertificateFile path w) = Some (None, Some (no_such_file_text path)) /\
  (forall password,
     fst (ReadEncryptedPEMRSAKeyFile path password w)
       = (None, Some (no_such_file_text path))).
Proof.
  intros Hfile.
  unfold ReadPEMCertificateFile, ReadPEMCertificatesFile, ReadEncryptedPEMRSAKeyFile,
    bind, ioutil_ReadFile, ret.
  rewrite Hfile. repeat split.
Qed.

(** X5. The type of the block is checked before anything else: a file whose
    first block is not an RSA PRIVATE KEY block is refused with the error that
    names the type found, with or without a password, encrypted or not. *)
Theorem ReadEncryptedPEMRSAKeyFile_wrong_type (path : string) (w : World)
    (pemData : list byte) (pemBlock : pem.Block) :
  files w !! path = Some pemData ->
  fst (pem_Decode pemData) = Some pemBlock ->
  pem.Type_ pemBlock <> "RSA PRIVATE KEY" ->
  forall password,
    fst (ReadEncryptedPEMRSAKeyFile path password w)
      = (None, Some (wrong_type_text (pem.Type_ pemBlock))).
Proof.
  intros Hfile Hdec Hty password.
  unfold ReadEncryptedPEMRSAKeyFile, bind, ioutil_ReadFile, ret.
  rewrite Hfile, Hdec.
  destruct (String.eqb_spec (pem.Type_ pemBlock) rsaPrivateKeyPEMBlockType) as [E|_];
    [contradiction | reflexivity].
Qed.

(** X6. A key file is read through its first block only: two files whose
    first blocks are the same give the same result, whatever follows the
    block. *)
Theorem ReadEncryptedPEMRSAKeyFile_first_block (path1 path2 : string) (w1 w2 : World)
    (data1 data2 : list byte) :
  files w1 !! path1 = Some data1 ->
  files w2 !! path2 = Some data2 ->
  fst (pem_Decode data1) = fst (pem_Decode data2) ->
  forall password,
    fst (ReadEncryptedPEMRSAKeyFile path1 password w1)
      = fst (ReadEncryptedPEMRSAKeyFile path2 password w2).
Proof.
  intros H1 H2 Hsame password.
  unfold ReadEncryptedPEMRSAKeyFile, bind, ioutil_ReadFile, ret.
  rewrite H1, H2, Hsame.
  destruct (fst (pem_Decode data2)) as [b|]; [|reflexivity].
  destruct (negb _); [reflexivity|].
  destruct (x509_IsEncryptedPEMBlock b), password as [pw|]; try reflexivity.
  destruct (x509_DecryptPEMBlock b pw); reflexivity.
Qed.

(** X7. [ReadPEMCertificateFile] returns a certificate exactly when
    [ReadPEMCertificatesFile] returns one certificate: it passes an error on,
    and it refuses any other number of certificates, none included. *)
Theorem ReadPEMCertificateFile_cardinality (path : string) (w : World) :
  (forall c,
     fst (ReadPEMCertificatesFile path w) = Some ([c], None) ->
     fst (ReadPEMCertificateFile path w) = Some (Some c, None))
  /\
  (forall certs,
     fst (ReadPEMCertificatesFile path w) = Some (certs, None) ->
     length certs <> 1%nat ->
     fst (ReadPEMCertificateFile path w)
       = Some (None, Some "incorrect number of certificates"))
  /\
  (forall certs e,
     fst (ReadPEMCertificatesFile path w) = Some (certs, Some e) ->
     fst (ReadPEMCertificateFile path w) = Some (None, Some e)).
Proof.
  unfold ReadPEMCertificateFile, bind.
  destruct (ReadPEMCertificatesFile path w) as [r w1]. simpl.
  split; [|split].
  - intros c ->. reflexivity.
  - intros certs -> Hlen.
    destruct certs as [|c [|c' certs]]; [reflexivity | now destruct Hlen | reflexivity].
  - intros certs e ->. reflexivity.
Qed.

Lemma ReadPEMCertificatesFile_for_success (fuel : nat) :
  forall data asn1data out,
    ReadPEMCertificatesFile_for fuel data asn1data = Some (Ok out) ->
    exists bs,
      decodes_as data bs /\
      Forall (fun b => pem.Type_ b = "CERTIFICATE") bs /\
      out = (asn1data ++ concat (map pem.Bytes bs))%list.
Proof.
  induction fuel as [|fuel IH]; intros data asn1data out; simpl; [discriminate|].
  destruct (pem_Decode data) as [[b|] rest] eqn:Hdec; [|discriminate].
  destruct (String.eqb_spec (pem.Type_ b) certificatePEMBlockType) as [Hty|_];
    [|discriminate]. simpl.
  destruct rest as [|c rest]; simpl.
  - intros [= <-]. exists [b]. split; [now apply decodes_last|].
    split; [now repeat constructor|]. simpl. now rewrite app_nil_r.
  - intros Hrun. destruct (IH _ _ _ Hrun) as [bs [Hbs [Hall ->]]].
    exists (b :: bs). split; [now apply (decodes_more _ b (c :: rest))|].
    split; [now constructor|]. simpl. now rewrite app_assoc.
Qed.

(** X8. [ReadPEMCertificatesFile] returns certificates only when
    [pem.Decode] takes CERTIFICATE blocks off the file one after the other
    until nothing is left, and the certificates are what
    [x509.ParseCertificates] makes of the payloads of these blocks joined in
    order. *)
Theorem ReadPEMCertificatesFile_success (path : string) (w : World)
    (pemData : list byte) (certs : list x509.Certificate) :
  files w !! path = Some pemData ->
  fst (ReadPEMCertificatesFile path w) = Some (certs, None) ->
  exists bs,
    decodes_as pemData bs /\
    Forall (fun b => pem.Type_ b = "CERTIFICATE") bs /\
    x509_ParseCertificates (concat (map pem.Bytes bs)) = Ok certs.
Proof.
  intros Hfile. unfold ReadPEMCertificatesFile, bind, ioutil_ReadFile, ret.
  rewrite Hfile.
  destruct (ReadPEMCertificatesFile_for _ _ _) as [[asn1data|e]|] eqn:Hfor;
    [|discriminate|discriminate].
  apply ReadPEMCertificatesFile_for_success in Hfor as [bs [Hbs [Hall ->]]].
  simpl. destruct (x509_ParseCertificates _) as [cs|e] eqn:Hparse; [|discriminate].
  intros [= <-]. now exists bs.
Qed.

(** A block that [pem.Decode] returns has been taken off the input. *)
Hypothesis pem_Decode_consumes :
  forall d b r, pem_Decode d = (Some b, r) -> (length r < length d)%nat.

Lemma ReadPEMCertificatesFile_for_blocks (data : list byte) (bs : list pem.Block) :
  decodes_as data bs ->
  Forall (fun b => pem.Type_ b = "CERTIFICATE") bs ->
  forall fuel asn1data,
    (length data < fuel)%nat ->
    ReadPEMCertificatesFile_for fuel data asn1data
      = Some (Ok (asn1data ++ concat (map pem.Bytes bs))%list).
Proof.
  induction 1 as [data b Hdec | data b rest bs Hdec Hrest _ IH];
    intros Hall [|fuel] asn1data Hfuel; try lia; simpl;
    inversion Hall as [|? ? Hty Hall']; subst;
    rewrite Hdec; change certificatePEMBlockType with "CERTIFICATE";
    rewrite Hty, String.eqb_refl; simpl.
  - now rewrite app_nil_r.
  - destruct rest as [|c rest]; [contradiction|]. simpl.
    rewrite (IH Hall'), app_assoc; [reflexivity|].
    apply pem_Decode_consumes in Hdec. simpl in *. lia.
Qed.

(** X9. For a file that is CERTIFICATE blocks from the first byte to the
    last, [ReadPEMCertificatesFile] joins the payloads of the blocks in order
    and returns what [x509.ParseCertificates] makes of the whole: the
    certificates, or its error. *)
Theorem ReadPEMCertificatesFile_blocks (path : string) (w : World)
    (pemData : list byte) (bs : list pem.Block) :
  files w !! path = Some pemData ->
  decodes_as pemData bs ->
  Forall (fun b => pem.Type_ b = "CERTIFICATE") bs ->
  fst (ReadPEMCertificatesFile path w) =
    Some match x509_ParseCertificates (concat (map pem.Bytes bs)) with
         | Ok certs => (certs, None)
         | Err e => ([], Some e)
         end.
Proof.
  intros Hfile Hbs Hall.
  unfold ReadPEMCertificatesFile, bind, ioutil_ReadFile, ret. rewrite Hfile.
  rewrite (ReadPEMCertificatesFile_for_blocks _ _ Hbs Hall) by lia. simpl.
  destruct (x509_ParseCertificates _); reflexivity.
Qed.

(** X10. An empty file holds no block: reading it as certificates fails
    with the PEM-block error and reading it as a key fails with the decode
    error, whatever the password. *)
Theorem readers_empty_file (path : string) (w : World) :
  files w !! path = Some [] ->
  fst (ReadPEMCertificatesFile path w) = Some ([], Some certificate_block_text) /\
  (forall password,
     fst (ReadEncryptedPEMRSAKeyFile path password w)
       = (None, Some "PEM decode failed")).
Proof.
  intros Hfile.
  assert (Hnone : fst (pem_Decode []) = None).
  { destruct (pem_Decode []) as [[b|] r] eqn:Hdec; [|reflexivity].
    apply pem_Decode_consumes in Hdec. simpl in Hdec. lia. }
  unfold ReadPEMCertificatesFile, ReadEncryptedPEMRSAKeyFile, bind, ioutil_ReadFile, ret.
  rewrite Hfile. simpl.
  destruct (pem_Decode []) as [blk r]. simpl in Hnone. subst blk.
  split; reflexivity.
Qed.

End Readers.

Lemma readers_missing_file_witness :
  fst (@ReadPEMCertificatesFile Sim.pem_pkg Sim.x509_pkg "absent.pem" Sim.w0)
    = Some ([], Some (no_such_file_text "absent.pem")) /\
  fst (@ReadPEMCertificateFile Sim.pem_pkg Sim.x509_pkg "absent.pem" Sim.w0)
    = Some (None, Some (no_such_file_text "absent.pem")) /\
  (forall password,
     fst (@ReadEncryptedPEMRSAKeyFile Sim.pem_pkg Sim.x509_pkg "absent.pem" password Sim.w0)
       = (None, Some (no_such_file_text "absent.pem"))).
Proof.
  apply (@readers_missing_file Sim.pem_pkg Sim.x509_pkg "absent.pem" Sim.w0).
  vm_compute. reflexivity.
Defined.

Lemma ReadEncryptedPEMRSAKeyFile_wrong_type_witness :
  fst (@ReadEncryptedPEMRSAKeyFile Sim.pem_pkg Sim.x509_pkg "cert.pem" None Sim.w_files)
    = (None, Some (wrong_type_text (pem.Type_ (Sim.certificate_block Sim.der0)))) /\
  fst (@ReadEncryptedPEMRSAKeyFile Sim.pem_pkg Sim.x509_pkg "cert.pem"
         (Some Sim.password) Sim.w_files)
    = (None, Some (wrong_type_text (pem.Type_ (Sim.certificate_block Sim.der0)))).
Proof.
  assert (Hfile : files Sim.w_files !! "cert.pem"
                  = Some (Sim.pem_text x00 (Sim.certificate_block Sim.der0)))
    by (vm_compute; reflexivity).
  assert (Hdec : fst (Sim.Decode (Sim.pem_text x00 (Sim.certificate_block Sim.der0)))
                 = Some (Sim.certificate_block Sim.der0))
    by (vm_compute; reflexivity).
  assert (Hty : pem.Type_ (Sim.certificate_block Sim.der0) <> "RSA PRIVATE KEY")
    by discriminate.
  split.
  - exact (@ReadEncryptedPEMRSAKeyFile_wrong_type Sim.pem_pkg Sim.x509_pkg
             "cert.pem" Sim.w_files _ _ Hfile Hdec Hty None).
  - exact (@ReadEncryptedPEMRSAKeyFile_wrong_type Sim.pem_pkg Sim.x509_pkg
             "cert.pem" Sim.w_files _ _ Hfile Hdec Hty (Some Sim.password)).
Defined.

Lemma ReadEncryptedPEMRSAKeyFile_first_block_witness :
  fst (@ReadEncryptedPEMRSAKeyFile Sim.pem_pkg Sim.x509_pkg "a.pem" None Sim.w_files)
    = fst (@ReadEncryptedPEMRSAKeyFile Sim.pem_pkg Sim.x509_pkg "b.pem" None Sim.w_files).
Proof.
  apply (@ReadEncryptedPEMRSAKeyFile_first_block Sim.pem_pkg Sim.x509_pkg
           "a.pem" "b.pem" Sim.w_files Sim.w_files
           (Sim.pem_text x00 Sim.key_block)
           (Sim.pem_text x00 Sim.key_block ++ Sim.garbage)%list).
  - vm_compute. reflexivity.
  - vm_compute. reflexivity.
  - vm_compute. reflexivity.
Defined.

Lemma ReadPEMCertificateFile_cardinality_witness :
  fst (@ReadPEMCertificateFile Sim.pem_pkg Sim.x509_pkg "cert.pem" Sim.w_files)
    = Some (Some Sim.cert0, None) /\
  fst (@ReadPEMCertificateFile Sim.pem_pkg Sim.x509_pkg "none.pem" Sim.w_files)
    = Some (None, Some "incorrect number of certificates") /\
  fst (@ReadPEMCertificateFile Sim.pem_pkg Sim.x509_pkg "b.pem" Sim.w_files)
    = Some (None, Some certificate_block_text).
Proof.
  split; [|split].
  - apply (proj1 (@ReadPEMCertificateFile_cardinality Sim.pem_pkg Sim.x509_pkg
                    "cert.pem" Sim.w_files)).
    vm_compute. reflexivity.
  - apply (proj1 (proj2 (@ReadPEMCertificateFile_cardinality Sim.pem_pkg Sim.x509_pkg
                           "none.pem" Sim.w_files)) []).
    + vm_compute. reflexivity.
    + discriminate.
  - apply (proj2 (proj2 (@ReadPEMCertificateFile_cardinality Sim.pem_pkg Sim.x509_pkg
                           "b.pem" Sim.w_files)) []).
    vm_compute. reflexivity.
Defined.

Lemma ReadPEMCertificatesFile_success_witness :
  exists bs,
    @decodes_as Sim.pem_pkg
      (Sim.pem_text x00 (Sim.certificate_block (take 5 Sim.der0))
       ++ Sim.pem_text x00 (Sim.certificate_block (drop 5 Sim.der0)))%list bs /\
    Forall (fun b => pem.Type_ b = "CERTIFICATE") bs /\
    Sim.ParseCertificates (concat (map pem.Bytes bs)) = Ok [Sim.cert0].
Proof.
  apply (@ReadPEMCertificatesFile_success Sim.pem_pkg Sim.x509_pkg
           "chain.pem" Sim.w_files).
  - vm_compute. reflexivity.
  - vm_compute. reflexivity.
Defined.

Lemma ReadPEMCertificatesFile_blocks_witness :
  fst (@ReadPEMCertificatesFile Sim.pem_pkg Sim.x509_pkg "chain.pem" Sim.w_files) =
    Some match Sim.ParseCertificates
                 (concat (map pem.Bytes
                    [Sim.certificate_block (take 5 Sim.der0);
                     Sim.certificate_block (drop 5 Sim.der0)])) with
         | Ok certs => (certs, None)
         | Err e => ([], Some e)
         end.
Proof.
  apply (@ReadPEMCertificatesFile_blocks Sim.pem_pkg Sim.x509_pkg Sim_Decode_shrinks
           "chain.pem" Sim.w_files
           (Sim.pem_text x00 (Sim.certificate_block (take 5 Sim.der0))
            ++ Sim.pem_text x00 (Sim.certificate_block (drop 5 Sim.der0)))%list).
  - vm_compute. reflexivity.
  - apply (@decodes_more Sim.pem_pkg _ (Sim.certificate_block (take 5 Sim.der0))
             (Sim.pem_text x00 (Sim.certificate_block (drop 5 Sim.der0)))).
    + vm_compute. reflexivity.
    + discriminate.
    + apply (@decodes_last Sim.pem_pkg). vm_compute. reflexivity.
  - repeat constructor.
Defined.

Lemma readers_empty_file_witness :
  fst (@ReadPEMCertificatesFile Sim.pem_pkg Sim.x509_pkg "empty.pem" Sim.w_files)
    = Some ([], Some certificate_block_text) /\
  (forall password,
     fst (@ReadEncryptedPEMRSAKeyFile Sim.pem_pkg Sim.x509_pkg "empty.pem" password
            Sim.w_files)
       = (None, Some "PEM decode failed")).
Proof.
  apply (@readers_empty_file Sim.pem_pkg Sim.x509_pkg Sim_Decode_shrinks
           "empty.pem" Sim.w_files).
  vm_compute. reflexivity.
Defined.

(** ** Writing files *)

Section Writers.

Context {PEM : pem_api} {X509 : x509_api}.

Lemma pem_Encode_to_run (path : string) (b : pem.Block) (w : World) :
  pem_Encode_to path b w =
    match pem_Encode b with
    | Err e =>
        (Some e,
         set_files (<[path := (default [] (files w !! path)
                               ++ pem_Encode_written b)%list]> (files w)) w)
    | Ok text =>
        (None,
         set_files (<[path := (default [] (files w !! path) ++ text)%list]> (files w)) w)
    end.
Proof.
  unfold pem_Encode_to, bind, file_Write, ret.
  destruct (pem_Encode b); reflexivity.
Qed.

(** Opening [path] and encoding the block [b] into it, as the two writers
    of unencrypted files do. *)
Lemma open_and_encode_run (path : string) (b : pem.Block) (w : World) :
  path ∉ write_denied w ->
  (let* o := os_OpenFile_trunc path in
   match o with
   | Some err => ret (Some err)
   | None => pem_Encode_to path b
   end) w =
    match pem_Encode b with
    | Err e => (Some e, set_files (<[path := pem_Encode_written b]> (files w)) w)
    | Ok text => (None, set_files (<[path := text]> (files w)) w)
    end.
Proof.
  intros Hfree. unfold bind, os_OpenFile_trunc.
  destruct (decide (path ∈ write_denied w)); [contradiction|].
  rewrite pem_Encode_to_run.
  destruct (pem_Encode b) as [text|e];
    unfold set_files; simpl; rewrite lookup_insert_eq; simpl;
    now rewrite insert_insert_eq.
Qed.

Lemma WriteEncryptedPEMRSAKeyFile_run (key : rsa.PrivateKey)
    (password : option (list byte)) (path : string) (w : World) :
  path ∉ write_denied w ->
  WriteEncryptedPEMRSAKeyFile key password path w =
    match x509_EncryptPEMBlock (entropy w) "RSA PRIVATE KEY"
            (x509_MarshalPKCS1PrivateKey key) (bytes_of password) x509.PEMCipher3DES with
    | (Err e, r) =>
        (Some e, set_entropy r (set_files (<[path := []]> (files w)) w))
    | (Ok b, r) =>
        match pem_Encode b with
        | Err e =>
            (Some e,
             set_entropy r (set_files (<[path := pem_Encode_written b]> (files w)) w))
        | Ok text => (None, set_entropy r (set_files (<[path := text]> (files w)) w))
        end
    end.
Proof.
  intros Hfree. unfold WriteEncryptedPEMRSAKeyFile, bind, os_OpenFile_trunc, with_rand.
  destruct (decide (path ∈ write_denied w)); [contradiction|]. simpl.
  destruct (x509_EncryptPEMBlock _ _ _ _ _) as [[b|e] r]; [|reflexivity].
  rewrite pem_Encode_to_run.
  destruct (pem_Encode b) as [text|e];
    unfold set_entropy, set_files; simpl; rewrite lookup_insert_eq; simpl;
    now rewrite insert_insert_eq.
Qed.

Lemma open_and_encode_ok (path : string) (b : pem.Block) (w : World) :
  let run := (let* o := os_OpenFile_trunc path in
              match o with
              | Some err => ret (Some err)
              | None => pem_Encode_to path b
              end) w in
  fst run = None ->
  exists text,
    pem_Encode b = Ok text /\
    files (snd run) = <[path := text]> (files w).
Proof.
  intros run. subst run.
  destruct (decide (path ∈ write_denied w)) as [Hdenied|Hfree].
  - unfold bind, os_OpenFile_trunc.
    destruct (decide (path ∈ write_denied w)); [discriminate | contradiction].
  - rewrite (open_and_encode_run _ _ _ Hfree).
    destruct (pem_Encode b) as [text|e]; [|discriminate].
    intros _. now exists text.
Qed.

Lemma WriteEncryptedPEMRSAKeyFile_success (key : rsa.PrivateKey)
    (password : option (list byte)) (path : string) (w : World) :
  fst (WriteEncryptedPEMRSAKeyFile key password path w) = None ->
  exists b r text,
    x509_EncryptPEMBlock (entropy w) "RSA PRIVATE KEY"
      (x509_MarshalPKCS1PrivateKey key) (bytes_of password) x509.PEMCipher3DES
      = (Ok b, r) /\
    pem_Encode b = Ok text /\
    files (snd (WriteEncryptedPEMRSAKeyFile key password path w))
      = <[path := text]> (files w).
Proof.
  destruct (decide (path ∈ write_denied w)) as [Hdenied|Hfree].
  - unfold WriteEncryptedPEMRSAKeyFile, bind, os_OpenFile_trunc.
    destruct (decide (path ∈ write_denied w)); [discriminate | contradiction].
  - rewrite (WriteEncryptedPEMRSAKeyFile_run _ _ _ _ Hfree).
    destruct (x509_EncryptPEMBlock _ _ _ _ _) as [[b|e] r]; [|discriminate].
    destruct (pem_Encode b) as [text|e] eqn:Htext; [|discriminate].
    intros _. now exists b, r, text.
Qed.

(** X11. A file that cannot be opened for writing is not written: each
    writer returns the error of opening it and leaves the world as it was. *)
Theorem writers_denied (cert : x509.Certificate) (key : rsa.PrivateKey)
    (password : option (list byte)) (path : string) (w : World) :
  path ∈ write_denied w ->
  WritePEMCertificateFile cert path w = (Some (permission_denied_text path), w) /\
  WritePEMRSAKeyFile key path w = (Some (permission_denied_text path), w) /\
  WriteEncryptedPEMRSAKeyFile key password path w
    = (Some (permission_denied_text path), w).
Proof.
  intros Hdenied.
  unfold WritePEMCertificateFile, WritePEMRSAKeyFile, WriteEncryptedPEMRSAKeyFile,
    bind, os_OpenFile_trunc, ret.
  destruct (decide (path ∈ write_denied w)); [|contradiction].
  repeat split.
Qed.

(** X12. The file is emptied before the key is encrypted: when
    [x509.EncryptPEMBlock] fails in [WriteEncryptedPEMRSAKeyFile] on a file
    that could be opened, its error is returned and the file is left empty,
    whatever it held, the other files being as they were. *)
Theorem failed_write_empties_file (key : rsa.PrivateKey)
    (password : option (list byte)) (path : string) (w : World) (e : error)
    (r : list byte) :
  path ∉ write_denied w ->
  x509_EncryptPEMBlock (entropy w) "RSA PRIVATE KEY"
    (x509_MarshalPKCS1PrivateKey key) (bytes_of password) x509.PEMCipher3DES
    = (Err e, r) ->
  fst (WriteEncryptedPEMRSAKeyFile key password path w) = Some e /\
  files (snd (WriteEncryptedPEMRSAKeyFile key password path w))
    = <[path := []]> (files w).
Proof.
  intros Hfree Henc.
  rewrite (WriteEncryptedPEMRSAKeyFile_run _ _ _ _ Hfree), Henc.
  split; reflexivity.
Qed.

(** X13. A writer that succeeds has replaced the content of the file by
    the PEM text of one block (of the certificate's raw bytes, of the
    marshalled key, or of the encrypted marshalled key) and has left every
    other file as it was. *)
Theorem successful_write_content (cert : x509.Certificate) (key : rsa.PrivateKey)
    (password : option (list byte)) (path : string) (w : World) :
  (fst (WritePEMCertificateFile cert path w) = None ->
   exists text,
     pem_Encode {| pem.Type_ := "CERTIFICATE"; pem.Headers := ∅;
                   pem.Bytes := x509.Raw cert |} = Ok text /\
     files (snd (WritePEMCertificateFile cert path w)) = <[path := text]> (files w)) /\
  (fst (WritePEMRSAKeyFile key path w) = None ->
   exists text,
     pem_Encode {| pem.Type_ := "RSA PRIVATE KEY"; pem.Headers := ∅;
                   pem.Bytes := x509_MarshalPKCS1PrivateKey key |} = Ok text /\
     files (snd (WritePEMRSAKeyFile key path w)) = <[path := text]> (files w)) /\
  (fst (WriteEncryptedPEMRSAKeyFile key password path w) = None ->
   exists b r text,
     x509_EncryptPEMBlock (entropy w) "RSA PRIVATE KEY"
       (x509_MarshalPKCS1PrivateKey key) (bytes_of password) x509.PEMCipher3DES
       = (Ok b, r) /\
     pem_Encode b = Ok text /\
     files (snd (WriteEncryptedPEMRSAKeyFile key password path w))
       = <[path := text]> (files w)).
Proof.
  split; [|split].
  - apply (open_and_encode_ok path _ w).
  - apply (open_and_encode_ok path _ w).
  - apply WriteEncryptedPEMRSAKeyFile_success.
Qed.

(** What the helpers rely on from [encoding/pem]. *)
Hypothesis pem_Decode_Encode :
  forall b text, pem_Encode b = Ok text -> pem_Decode text = (Some b, []).

(** X14. A certificate written with [WritePEMCertificateFile] reads back:
    [ReadPEMCertificatesFile] returns what [x509.ParseCertificates] makes of
    the raw bytes of the certificate, and when that is the certificate itself
    [ReadPEMCertificateFile] returns it. *)
Theorem certificate_file_round_trip (cert : x509.Certificate) (path : string) (w : World) :
  fst (WritePEMCertificateFile cert path w) = None ->
  let w' := snd (WritePEMCertificateFile cert path w) in
  fst (ReadPEMCertificatesFile path w') =
    Some match x509_ParseCertificates (x509.Raw cert) with
         | Ok certs => (certs, None)
         | Err e => ([], Some e)
         end /\
  (x509_ParseCertificates (x509.Raw cert) = Ok [cert] ->
   fst (ReadPEMCertificateFile path w') = Some (Some cert, None)).
Proof.
  intros Hok w'.
  destruct (open_and_encode_ok path _ w Hok) as [text [Htext Hfiles]].
  change (files w' = <[path := text]> (files w)) in Hfiles.
  assert (Hread : files w' !! path = Some text)
    by (rewrite Hfiles; apply lookup_insert_eq).
  apply pem_Decode_Encode in Htext.
  assert (Hcerts : fst (ReadPEMCertificatesFile path w') =
                     Some match x509_ParseCertificates (x509.Raw cert) with
                          | Ok certs => (certs, None)
                          | Err e => ([], Some e)
                          end).
  { unfold ReadPEMCertificatesFile, bind, ioutil_ReadFile, ret.
    rewrite Hread. simpl. rewrite Htext. simpl.
    destruct (x509_ParseCertificates (x509.Raw cert)); reflexivity. }
  split; [exact Hcerts|].
  intros Hparse. rewrite Hparse in Hcerts.
  unfold ReadPEMCertificateFile, bind.
  destruct (ReadPEMCertificatesFile path w') as [r w1]. simpl in Hcerts. now subst r.
Qed.

(** X15. The two kinds of file are not taken for each other: a key file
    written with [WritePEMRSAKeyFile] is refused by the reader of
    certificates, and a certificate file written with
    [WritePEMCertificateFile] is refused by the reader of keys, which names
    the type it found. *)
Theorem files_of_the_other_kind (cert : x509.Certificate) (key : rsa.PrivateKey)
    (path : string) (w : World) :
  (fst (WritePEMRSAKeyFile key path w) = None ->
   fst (ReadPEMCertificatesFile path (snd (WritePEMRSAKeyFile key path w)))
     = Some ([], Some certificate_block_text)) /\
  (fst (WritePEMCertificateFile cert path w) = None ->
   forall password,
     fst (ReadEncryptedPEMRSAKeyFile path password
            (snd (WritePEMCertificateFile cert path w)))
       = (None, Some (wrong_type_text "CERTIFICATE"))).
Proof.
  split; intros Hok.
  - destruct (open_and_encode_ok path _ w Hok) as [text [Htext Hfiles]].
    change (files (snd (WritePEMRSAKeyFile key path w)) = <[path := text]> (files w))
      in Hfiles.
    apply pem_Decode_Encode in Htext.
    unfold ReadPEMCertificatesFile, bind, ioutil_ReadFile, ret.
    rewrite Hfiles, lookup_insert_eq. simpl. rewrite Htext. reflexivity.
  - intros password.
    destruct (open_and_encode_ok path _ w Hok) as [text [Htext Hfiles]].
    change (files (snd (WritePEMCertificateFile cert path w))
              = <[path := text]> (files w)) in Hfiles.
    apply pem_Decode_Encode in Htext.
    unfold ReadEncryptedPEMRSAKeyFile, bind, ioutil_ReadFile, ret.
    rewrite Hfiles, lookup_insert_eq, Htext. reflexivity.
Qed.

(** A block without headers is not an encrypted block. *)
Hypothesis plain_block_not_encrypted :
  forall b, pem.Headers b = ∅ -> x509_IsEncryptedPEMBlock b = false.

(** X16. A key written without a password reads back without a password,
    and reading it with a password, even an empty one, fails with the
    unexpected-password error. *)
Theorem plain_key_file_round_trip (key : rsa.PrivateKey) (path : string) (w : World) :
  x509_ParsePKCS1PrivateKey (x509_MarshalPKCS1PrivateKey key) = Ok key ->
  fst (WritePEMRSAKeyFile key path w) = None ->
  let w' := snd (WritePEMRSAKeyFile key path w) in
  fst (ReadPEMRSAKeyFile path w') = (Some key, None) /\
  (forall password,
     fst (ReadEncryptedPEMRSAKeyFile path (Some password) w')
       = (None, Some "supplied PEM password, but not encrypted")).
Proof.
  intros Hkey Hok w'.
  destruct (open_and_encode_ok path _ w Hok) as [text [Htext Hfiles]].
  change (files w' = <[path := text]> (files w)) in Hfiles.
  apply pem_Decode_Encode in Htext.
  assert (Hread : files w' !! path = Some text)
    by (rewrite Hfiles; apply lookup_insert_eq).
  assert (Hdec : fst (pem_Decode text) =
                   Some {| pem.Type_ := "RSA PRIVATE KEY"; pem.Headers := ∅;
                           pem.Bytes := x509_MarshalPKCS1PrivateKey key |})
    by now rewrite Htext.
  assert (Hrun := fun pw =>
    ReadEncryptedPEMRSAKeyFile_run path pw w' text _ Hread Hdec eq_refl).
  split.
  - unfold ReadPEMRSAKeyFile. rewrite Hrun.
    replace (x509_IsEncryptedPEMBlock _) with false
      by (symmetry; now apply plain_block_not_encrypted).
    simpl. now rewrite Hkey.
  - intros password. rewrite Hrun.
    replace (x509_IsEncryptedPEMBlock _) with false
      by (symmetry; now apply plain_block_not_encrypted).
    reflexivity.
Qed.

(** What the helpers rely on from the cipher of [crypto/x509]. *)
Hypothesis EncryptPEMBlock_sound :
  forall r blockType data password alg b r',
    x509_EncryptPEMBlock r blockType data password alg = (Ok b, r') ->
    pem.Type_ b = blockType /\
    x509_IsEncryptedPEMBlock b = true /\
    x509_DecryptPEMBlock b password = Ok data.

(** X17. Writing with a [nil] password still encrypts, with the empty
    password: the file then cannot be read with a [nil] password, which fails
    with the missing-password error, and is read with the empty password that
    is not [nil]. *)
Theorem nil_password_still_encrypts (key : rsa.PrivateKey) (path : string) (w : World) :
  x509_ParsePKCS1PrivateKey (x509_MarshalPKCS1PrivateKey key) = Ok key ->
  fst (WriteEncryptedPEMRSAKeyFile key None path w) = None ->
  let w' := snd (WriteEncryptedPEMRSAKeyFile key None path w) in
  fst (ReadEncryptedPEMRSAKeyFile path None w')
    = (None, Some "no supplied password for encrypted PEM") /\
  fst (ReadPEMRSAKeyFile path w')
    = (None, Some "no supplied password for encrypted PEM") /\
  fst (ReadEncryptedPEMRSAKeyFile path (Some []) w') = (Some key, None).
Proof.
  intros Hkey Hok w'.
  destruct (WriteEncryptedPEMRSAKeyFile_success key None path w Hok)
    as [b [r [text [Henc [Htext Hfiles]]]]].
  fold w' in Hfiles. simpl in Henc.
  destruct (EncryptPEMBlock_sound _ _ _ _ _ _ _ Henc) as [Hty [Hisenc Hdecrypt]].
  apply pem_Decode_Encode in Htext.
  assert (Hread : files w' !! path = Some text)
    by (rewrite Hfiles; apply lookup_insert_eq).
  assert (Hdec : fst (pem_Decode text) = Some b) by now rewrite Htext.
  assert (Hrun := fun pw => ReadEncryptedPEMRSAKeyFile_run path pw w' text b Hread Hdec Hty).
  unfold ReadPEMRSAKeyFile. rewrite !Hrun, Hisenc, Hdecrypt, Hkey.
  repeat split.
Qed.

End Writers.

Lemma Sim_plain_block_not_encrypted (b : pem.Block) :
  pem.Headers b = ∅ -> Sim.IsEncryptedPEMBlock b = false.
Proof.
  intros Hb. unfold Sim.IsEncryptedPEMBlock. rewrite Hb.
  apply bool_decide_eq_false. intros [x Hx]. rewrite lookup_empty in Hx. discriminate.
Qed.

Lemma writers_denied_witness :
  @WritePEMCertificateFile Sim.pem_pkg Sim.cert0 "locked.pem" Sim.w_locked
    = (Some (permission_denied_text "locked.pem"), Sim.w_locked) /\
  @WritePEMRSAKeyFile Sim.pem_pkg Sim.x509_pkg Sim.key0 "locked.pem" Sim.w_locked
    = (Some (permission_denied_text "locked.pem"), Sim.w_locked) /\
  @WriteEncryptedPEMRSAKeyFile Sim.pem_pkg Sim.x509_pkg Sim.key0 (Some Sim.password)
    "locked.pem" Sim.w_locked
    = (Some (permission_denied_text "locked.pem"), Sim.w_locked).
Proof.
  apply (@writers_denied Sim.pem_pkg Sim.x509_pkg Sim.cert0 Sim.key0
           (Some Sim.password) "locked.pem" Sim.w_locked).
  unfold Sim.w_locked. cbn [write_denied]. apply elem_of_singleton. reflexivity.
Defined.

Lemma failed_write_empties_file_witness :
  fst (@WriteEncryptedPEMRSAKeyFile Sim.pem_pkg Sim.x509_pkg Sim.key0
         (Some Sim.password) "key.pem" Sim.w_dry) = Some Sim.eof /\
  files (snd (@WriteEncryptedPEMRSAKeyFile Sim.pem_pkg Sim.x509_pkg Sim.key0
                (Some Sim.password) "key.pem" Sim.w_dry))
    = <["key.pem" := []]> (files Sim.w_dry).
Proof.
  apply (@failed_write_empties_file Sim.pem_pkg Sim.x509_pkg Sim.key0
           (Some Sim.password) "key.pem" Sim.w_dry Sim.eof [] (not_elem_of_empty _)).
  vm_compute. reflexivity.
Defined.

Lemma successful_write_content_witness :
  exists text,
    Sim.Encode {| pem.Type_ := "RSA PRIVATE KEY"; pem.Headers := ∅;
                  pem.Bytes := Sim.MarshalPKCS1PrivateKey Sim.key0 |} = Ok text /\
    files (snd (@WritePEMRSAKeyFile Sim.pem_pkg Sim.x509_pkg Sim.key0 "plain.pem"
                  Sim.w_rand))
      = <["plain.pem" := text]> (files Sim.w_rand).
Proof.
  apply (proj1 (proj2 (@successful_write_content Sim.pem_pkg Sim.x509_pkg Sim.cert0
                         Sim.key0 None "plain.pem" Sim.w_rand))).
  vm_compute. reflexivity.
Defined.

Lemma certificate_file_round_trip_witness :
  fst (@ReadPEMCertificateFile Sim.pem_pkg Sim.x509_pkg "cert.pem"
         (snd (@WritePEMCertificateFile Sim.pem_pkg Sim.cert0 "cert.pem" Sim.w_rand)))
    = Some (Some Sim.cert0, None).
Proof.
  apply (proj2 (@certificate_file_round_trip Sim.pem_pkg Sim.x509_pkg Sim_Decode_Encode
                  Sim.cert0 "cert.pem" Sim.w_rand ltac:(vm_compute; reflexivity))).
  vm_compute. reflexivity.
Defined.

Lemma files_of_the_other_kind_witness :
  fst (@ReadPEMCertificatesFile Sim.pem_pkg Sim.x509_pkg "plain.pem"
         (snd (@WritePEMRSAKeyFile Sim.pem_pkg Sim.x509_pkg Sim.key0 "plain.pem"
                 Sim.w_rand)))
    = Some ([], Some certificate_block_text) /\
  (forall password,
     fst (@ReadEncryptedPEMRSAKeyFile Sim.pem_pkg Sim.x509_pkg "cert.pem" password
            (snd (@WritePEMCertificateFile Sim.pem_pkg Sim.cert0 "cert.pem" Sim.w_rand)))
       = (None, Some (wrong_type_text "CERTIFICATE"))).
Proof.
  split.
  - apply (proj1 (@files_of_the_other_kind Sim.pem_pkg Sim.x509_pkg Sim_Decode_Encode
                    Sim.cert0 Sim.key0 "plain.pem" Sim.w_rand)).
    vm_compute. reflexivity.
  - apply (proj2 (@files_of_the_other_kind Sim.pem_pkg Sim.x509_pkg Sim_Decode_Encode
                    Sim.cert0 Sim.key0 "cert.pem" Sim.w_rand)).
    vm_compute. reflexivity.
Defined.

Lemma plain_key_file_round_trip_witness :
  fst (@ReadPEMRSAKeyFile Sim.pem_pkg Sim.x509_pkg "plain.pem"
         (snd (@WritePEMRSAKeyFile Sim.pem_pkg Sim.x509_pkg Sim.key0 "plain.pem"
                 Sim.w_rand)))
    = (Some Sim.key0, None) /\
  (forall password,
     fst (@ReadEncryptedPEMRSAKeyFile Sim.pem_pkg Sim.x509_pkg "plain.pem" (Some password)
            (snd (@WritePEMRSAKeyFile Sim.pem_pkg Sim.x509_pkg Sim.key0 "plain.pem"
                    Sim.w_rand)))
       = (None, Some "supplied PEM password, but not encrypted")).
Proof.
  apply (@plain_key_file_round_trip Sim.pem_pkg Sim.x509_pkg Sim_Decode_Encode
           Sim_plain_block_not_encrypted Sim.key0 "plain.pem" Sim.w_rand).
  - vm_compute. reflexivity.
  - vm_compute. reflexivity.
Defined.

Lemma nil_password_still_encrypts_witness :
  fst (@ReadEncryptedPEMRSAKeyFile Sim.pem_pkg Sim.x509_pkg "key.pem" None
         (snd (@WriteEncryptedPEMRSAKeyFile Sim.pem_pkg Sim.x509_pkg Sim.key0 None
                 "key.pem" Sim.w_rand)))
    = (None, Some "no supplied password for encrypted PEM") /\
  fst (@ReadPEMRSAKeyFile Sim.pem_pkg Sim.x509_pkg "key.pem"
         (snd (@WriteEncryptedPEMRSAKeyFile Sim.pem_pkg Sim.x509_pkg Sim.key0 None
                 "key.pem" Sim.w_rand)))
    = (None, Some "no supplied password for encrypted PEM") /\
  fst (@ReadEncryptedPEMRSAKeyFile Sim.pem_pkg Sim.x509_pkg "key.pem" (Some [])
         (snd (@WriteEncryptedPEMRSAKeyFile Sim.pem_pkg Sim.x509_pkg Sim.key0 None
                 "key.pem" Sim.w_rand)))
    = (Some Sim.key0, None).
Proof.
  apply (@nil_password_still_encrypts Sim.pem_pkg Sim.x509_pkg Sim_Decode_Encode
           Sim_EncryptPEMBlock_sound Sim.key0 "key.pem" Sim.w_rand).
  - vm_compute. reflexivity.
  - vm_compute. reflexivity.
Defined.

(** ** Issuing certificates *)

Lemma int64_wrap_above (z : Z) :
  2 ^ 63 <= z < 2 ^ 64 + 2 ^ 63 -> int64_wrap z = z - 2 ^ 64.
Proof.
  intros Hz. unfold int64_wrap.
  replace (z + 2 ^ 63) with ((z - 2 ^ 63) + 1 * 2 ^ 64) by lia.
  rewrite Z_mod_plus_full, Z.mod_small; lia.
Qed.

Lemma truncate_to_bounds (g t : Z) :
  0 < g -> truncate_to g t <= t < truncate_to g t + g.
Proof.
  intros Hg. unfold truncate_to.
  pose proof (Z.mod_pos_bound t g Hg). pose proof (Z.div_mod t g). lia.
Qed.

Section IssuerEffects.

Context {RAND : rand_api} {X509 : x509_api}.

(** X18. Issuing a certificate touches neither the files nor the record of
    verifications, and it reads the clock once, after the key and the serial
    number have been drawn, and not at all when one of the two fails. *)
Theorem SimpleSelfSignedRSAKeypair_effects (cn : string) (days : Z) (w : World) :
  let run := SimpleSelfSignedRSAKeypair cn days w in
  files (snd run) = files w /\
  write_denied (snd run) = write_denied w /\
  p7_calls (snd run) = p7_calls w /\
  wallclock (snd run) = wallclock w /\
  ((exists k r1 serialNumber r2,
      rsa_GenerateKey (entropy w) 2048 = (Ok k, r1) /\
      rand_Int r1 (2 ^ 128) = (Ok serialNumber, r2)) ->
   ticks (snd run) = S (ticks w)) /\
  ((forall k r1 serialNumber r2,
      rsa_GenerateKey (entropy w) 2048 = (Ok k, r1) ->
      rand_Int r1 (2 ^ 128) <> (Ok serialNumber, r2)) ->
   ticks (snd run) = ticks w).
Proof.
  unfold SimpleSelfSignedRSAKeypair, GenerateRandomCertificateSerialNumber,
    bind, with_rand, time_Now, ret. simpl.
  change (Z.shiftl 1 128) with (2 ^ 128).
  destruct (rsa_GenerateKey (entropy w) 2048) as [[k|e1] r1]; simpl.
  - destruct (rand_Int r1 (2 ^ 128)) as [[serialNumber|e2] r2] eqn:Hserial; simpl.
    + destruct (x509_CreateCertificate r2 _ _ _ _) as [[der|e3] r3]; simpl.
      * destruct (x509_ParseCertificate der) as [c|e4]; simpl;
          (repeat split; try reflexivity;
           intros Hnever; now destruct (Hnever k r1 serialNumber r2 eq_refl)).
      * repeat split. intros Hnever. now destruct (Hnever k r1 serialNumber r2 eq_refl).
    + repeat split. intros [k' [r1' [s' [r2' [[= <- <-] Hs]]]]]. congruence.
  - repeat split. intros [k' [r1' [s' [r2' [Hk _]]]]]. discriminate.
Qed.

Lemma SimpleSelfSignedRSAKeypair_steps (cn : string) (days : Z) (w : World)
    (key : option rsa.PrivateKey) (cert : x509.Certificate) :
  fst (SimpleSelfSignedRSAKeypair cn days w) = (key, Some cert, None) ->
  exists k r1 serialNumber r2 der r3,
    key = Some k /\
    rsa_GenerateKey (entropy w) 2048 = (Ok k, r1) /\
    rand_Int r1 (2 ^ 128) = (Ok serialNumber, r2) /\
    x509_CreateCertificate r2
      (template_of cn days serialNumber (wallclock w (ticks w)))
      (template_of cn days serialNumber (wallclock w (ticks w)))
      (rsa.Public k) k = (Ok der, r3) /\
    x509_ParseCertificate der = Ok cert.
Proof.
  unfold SimpleSelfSignedRSAKeypair, GenerateRandomCertificateSerialNumber,
    bind, with_rand, time_Now, ret. simpl.
  change (Z.shiftl 1 128) with (2 ^ 128).
  destruct (rsa_GenerateKey (entropy w) 2048) as [[k|e] r1] eqn:Hk; simpl;
    [|discriminate].
  destruct (rand_Int r1 (2 ^ 128)) as [[serialNumber|e] r2] eqn:Hserial; simpl;
    [|discriminate].
  destruct (x509_CreateCertificate r2 _ _ _ _) as [[der|e] r3] eqn:Hcreate; simpl;
    [|discriminate].
  destruct (x509_ParseCertificate der) as [c|e] eqn:Hparse; simpl; [|discriminate].
  intros [= <- <-]. exists k, r1, serialNumber, r2, der, r3.
  repeat split; assumption.
Qed.

(** [rand.Int] returns a number below its bound. *)
Hypothesis rand_Int_below :
  forall r max n r', 0 < max -> rand_Int r max = (Ok n, r') -> 0 <= n < max.

(** X19. A serial number that [GenerateRandomCertificateSerialNumber]
    returns is at least 0 and below 2^128, and drawing it changes nothing but
    the state of the random reader. *)
Theorem GenerateRandomCertificateSerialNumber_range (w : World) (n : Z) :
  fst (GenerateRandomCertificateSerialNumber w) = Ok n ->
  0 <= n < 2 ^ 128 /\
  exists r, snd (GenerateRandomCertificateSerialNumber w) = set_entropy r w.
Proof.
  unfold GenerateRandomCertificateSerialNumber, with_rand.
  change (Z.shiftl 1 128) with (2 ^ 128).
  destruct (rand_Int (entropy w) (2 ^ 128)) as [[m|e] r] eqn:Hint; simpl; [|discriminate].
  intros [= <-]. split; [|now exists r].
  refine (rand_Int_below _ (2 ^ 128) _ _ _ Hint). reflexivity.
Qed.

(** X20. The certificate that [SimpleSelfSignedRSAKeypair] returns is
    parsed from what [x509.CreateCertificate] made of a template that is its
    own parent, for the public key of the key that is returned and signed with
    that key; the template has a serial number at least 0 and below 2^128,
    the common name as subject and as only DNS name, and the key usages of
    key encipherment and digital signature. *)
Theorem SimpleSelfSignedRSAKeypair_self_signed (cn : string) (days : Z) (w : World)
    (key : option rsa.PrivateKey) (cert : x509.Certificate) :
  fst (SimpleSelfSignedRSAKeypair cn days w) = (key, Some cert, None) ->
  exists k template r der r',
    key = Some k /\
    x509_CreateCertificate r template template (rsa.Public k) k = (Ok der, r') /\
    x509_ParseCertificate der = Ok cert /\
    0 <= x509.SerialNumber template < 2 ^ 128 /\
    pkix.CommonName (x509.Subject template) = cn /\
    x509.DNSNames template = [cn] /\
    x509.KeyUsage template = 5 /\
    Z.testbit (x509.KeyUsage template) 0 = true /\
    Z.testbit (x509.KeyUsage template) 2 = true /\
    x509.ExtKeyUsage template = [x509.ExtKeyUsageServerAuth] /\
    x509.BasicConstraintsValid template = true /\
    x509.NotBefore template = wallclock w (ticks w).
Proof.
  intros Hrun.
  apply SimpleSelfSignedRSAKeypair_steps in Hrun
    as [k [r1 [serialNumber [r2 [der [r3 [Hkey [_ [Hserial [Hcreate Hparse]]]]]]]]]].
  exists k, (template_of cn days serialNumber (wallclock w (ticks w))), r2, der, r3.
  assert (Hrange : 0 <= serialNumber < 2 ^ 128)
    by (refine (rand_Int_below _ (2 ^ 128) _ _ _ Hserial); reflexivity).
  repeat split; try assumption; try reflexivity; apply Hrange.
Qed.

End IssuerEffects.

Section IssuerValidity.

Context {RAND : rand_api} {X509 : x509_api}.

Variable g : Z.
Hypothesis g_positive : 0 < g.
Hypothesis g_divides_Second : (g | Second).
Hypothesis validity_carried :
  forall r template parent pub priv der r' cert,
    x509_CreateCertificate r template parent pub priv = (Ok der, r') ->
    x509_ParseCertificate der = Ok cert ->
    x509.NotBefore cert = truncate_to g (x509.NotBefore template) /\
    x509.NotAfter cert = truncate_to g (x509.NotAfter template).

Lemma g_at_most_Second : g <= Second.
Proof.
  apply Z.divide_pos_le; [reflexivity | exact g_divides_Second].
Qed.

(** X21. The number of days is not checked: for a number of days between
    -106751 and 0 on which a certificate is issued, its NotAfter is not after
    its NotBefore; they are equal for 0 days and NotAfter is earlier for a
    negative number. *)
Theorem SimpleSelfSignedRSAKeypair_no_days (cn : string) (days : Z) (w : World)
    (key : option rsa.PrivateKey) (cert : x509.Certificate) :
  - 106751 <= days <= 0 ->
  fst (SimpleSelfSignedRSAKeypair cn days w) = (key, Some cert, None) ->
  x509.NotAfter cert <= x509.NotBefore cert /\
  (days = 0 -> x509.NotAfter cert = x509.NotBefore cert) /\
  (days < 0 -> x509.NotAfter cert < x509.NotBefore cert).
Proof.
  intros Hdays Hrun.
  apply SimpleSelfSignedRSAKeypair_success in Hrun
    as [k [serialNumber [r [der [r' [_ [Hcreate Hparse]]]]]]].
  destruct (validity_carried _ _ _ _ _ _ _ _ Hcreate Hparse) as [Hnb Hna].
  simpl in Hnb, Hna. rewrite Hnb, Hna.
  rewrite (validity_duration_in_range days) by (unfold max_days; lia).
  unfold Time_Add.
  rewrite (truncate_to_add g _ _ g_positive (g_divides_days g g_divides_Second days)).
  unfold Hour, Second. lia.
Qed.

(** X22. Past 106751 days the nanoseconds of the validity no longer fit a
    [Duration] and wrap around: for a number of days between 106752 and
    213503 on which a certificate is issued, its NotAfter is before its
    NotBefore. *)
Theorem SimpleSelfSignedRSAKeypair_too_many_days (cn : string) (days : Z) (w : World)
    (key : option rsa.PrivateKey) (cert : x509.Certificate) :
  106752 <= days <= 213503 ->
  fst (SimpleSelfSignedRSAKeypair cn days w) = (key, Some cert, None) ->
  x509.NotAfter cert < x509.NotBefore cert.
Proof.
  intros Hdays Hrun.
  apply SimpleSelfSignedRSAKeypair_success in Hrun
    as [k [serialNumber [r [der [r' [_ [Hcreate Hparse]]]]]]].
  destruct (validity_carried _ _ _ _ _ _ _ _ Hcreate Hparse) as [Hnb Hna].
  simpl in Hnb, Hna. rewrite Hnb, Hna.
  assert (Hwrap : Duration_mul (Duration_mul (Duration_of_int days) 24) Hour
                  = days * (24 * 3600 * Second) - 2 ^ 64).
  { unfold Duration_mul, Duration_of_int, Hour, Second.
    rewrite (int64_wrap_id days) by lia.
    rewrite (int64_wrap_id (days * 24)) by lia.
    rewrite int64_wrap_above by lia. lia. }
  rewrite Hwrap. unfold Time_Add.
  pose proof g_at_most_Second as Hg.
  pose proof (truncate_to_bounds g (wallclock w (ticks w)) g_positive) as Hb.
  pose proof (truncate_to_bounds g
                (wallclock w (ticks w) + (days * (24 * 3600 * Second) - 2 ^ 64))
                g_positive) as Ha.
  unfold Second in *. lia.
Qed.

End IssuerValidity.

Lemma Sim_Int_below (r : list byte) (max n : Z) (r' : list byte) :
  0 < max -> Sim.Int r max = (Ok n, r') -> 0 <= n < max.
Proof.
  intros Hmax. unfold Sim.Int. destruct (length r <? 16)%nat; [discriminate|].
  intros [= <- _]. now apply Z.mod_pos_bound.
Qed.

Lemma SimpleSelfSignedRSAKeypair_effects_witness :
  ticks (snd (@SimpleSelfSignedRSAKeypair Sim.rand_pkg Sim.x509_pkg "example.org" 365
                Sim.w_rand)) = S (ticks Sim.w_rand) /\
  ticks (snd (@SimpleSelfSignedRSAKeypair Sim.rand_pkg Sim.x509_pkg "example.org" 365
                Sim.w_rand_short)) = ticks Sim.w_rand_short.
Proof.
  split.
  - apply (proj1 (proj2 (proj2 (proj2 (proj2
             (@SimpleSelfSignedRSAKeypair_effects Sim.rand_pkg Sim.x509_pkg
                "example.org" 365 Sim.w_rand)))))).
    do 4 eexists. split; reflexivity.
  - apply (proj2 (proj2 (proj2 (proj2 (proj2
             (@SimpleSelfSignedRSAKeypair_effects Sim.rand_pkg Sim.x509_pkg
                "example.org" 365 Sim.w_rand_short)))))).
    intros k r1 serialNumber r2 Hk. injection Hk as <- <-. discriminate.
Defined.

Lemma GenerateRandomCertificateSerialNumber_range_witness :
  exists n,
    fst (@GenerateRandomCertificateSerialNumber Sim.rand_pkg Sim.w_rand) = Ok n /\
    0 <= n < 2 ^ 128 /\
    exists r, snd (@GenerateRandomCertificateSerialNumber Sim.rand_pkg Sim.w_rand)
              = set_entropy r Sim.w_rand.
Proof.
  assert (Hrun : exists n,
    fst (@GenerateRandomCertificateSerialNumber Sim.rand_pkg Sim.w_rand) = Ok n).
  { vm_compute. eexists. reflexivity. }
  destruct Hrun as [n Hrun]. exists n. split; [exact Hrun|].
  exact (@GenerateRandomCertificateSerialNumber_range Sim.rand_pkg Sim_Int_below
           Sim.w_rand n Hrun).
Defined.

Lemma SimpleSelfSignedRSAKeypair_self_signed_witness :
  exists key cert,
    fst (@SimpleSelfSignedRSAKeypair Sim.rand_pkg Sim.x509_pkg "example.org" 365
           Sim.w_rand) = (key, Some cert, None) /\
    exists k template r der r',
      key = Some k /\
      Sim.CreateCertificate r template template (rsa.Public k) k = (Ok der, r') /\
      Sim.ParseCertificate der = Ok cert /\
      0 <= x509.SerialNumber template < 2 ^ 128 /\
      pkix.CommonName (x509.Subject template) = "example.org" /\
      x509.DNSNames template = ["example.org"] /\
      x509.KeyUsage template = 5 /\
      Z.testbit (x509.KeyUsage template) 0 = true /\
      Z.testbit (x509.KeyUsage template) 2 = true /\
      x509.ExtKeyUsage template = [x509.ExtKeyUsageServerAuth] /\
      x509.BasicConstraintsValid template = true /\
      x509.NotBefore template = wallclock Sim.w_rand (ticks Sim.w_rand).
Proof.
  assert (Hrun : exists key cert,
    fst (@SimpleSelfSignedRSAKeypair Sim.rand_pkg Sim.x509_pkg "example.org" 365
           Sim.w_rand) = (key, Some cert, None)).
  { vm_compute. eexists. eexists. reflexivity. }
  destruct Hrun as [key [cert Hrun]]. exists key, cert. split; [exact Hrun|].
  exact (@SimpleSelfSignedRSAKeypair_self_signed Sim.rand_pkg Sim.x509_pkg Sim_Int_below
           "example.org" 365 Sim.w_rand key cert Hrun).
Defined.

Lemma SimpleSelfSignedRSAKeypair_no_days_witness :
  exists key cert,
    fst (@SimpleSelfSignedRSAKeypair Sim.rand_pkg Sim.x509_pkg "example.org" (-1)
           Sim.w_rand) = (key, Some cert, None) /\
    x509.NotAfter cert <= x509.NotBefore cert /\
    (-1 = 0 -> x509.NotAfter cert = x509.NotBefore cert) /\
    (-1 < 0 -> x509.NotAfter cert < x509.NotBefore cert).
Proof.
  assert (Hrun : exists key cert,
    fst (@SimpleSelfSignedRSAKeypair Sim.rand_pkg Sim.x509_pkg "example.org" (-1)
           Sim.w_rand) = (key, Some cert, None)).
  { vm_compute. eexists. eexists. reflexivity. }
  destruct Hrun as [key [cert Hrun]]. exists key, cert. split; [exact Hrun|].
  apply (@SimpleSelfSignedRSAKeypair_no_days Sim.rand_pkg Sim.x509_pkg Second
           eq_refl (Z.divide_refl Second) Sim_validity_carried
           "example.org" (-1) Sim.w_rand key cert); [lia | exact Hrun].
Defined.

Lemma SimpleSelfSignedRSAKeypair_too_many_days_witness :
  exists key cert,
    fst (@SimpleSelfSignedRSAKeypair Sim.rand_pkg Sim.x509_pkg "example.org" 200000
           Sim.w_rand) = (key, Some cert, None) /\
    x509.NotAfter cert < x509.NotBefore cert.
Proof.
  assert (Hrun : exists key cert,
    fst (@SimpleSelfSignedRSAKeypair Sim.rand_pkg Sim.x509_pkg "example.org" 200000
           Sim.w_rand) = (key, Some cert, None)).
  { vm_compute. eexists. eexists. reflexivity. }
  destruct Hrun as [key [cert Hrun]]. exists key, cert. split; [exact Hrun|].
  apply (@SimpleSelfSignedRSAKeypair_too_many_days Sim.rand_pkg Sim.x509_pkg Second
           eq_refl (Z.divide_refl Second) Sim_validity_carried
           "example.org" 200000 Sim.w_rand key cert); [lia | exact Hrun].
Defined.

(** ** Verify and the clock *)

(** X23. [Verify] asks for one verification or two, reads the clock once
    for each, and touches neither the files nor the random reader. *)
Theorem Verify_effects (v : PKCS7Verifier) (p7 : pkcs7.PKCS7) (w : World) :
  let w' := snd (Verify v p7 w) in
  files w' = files w /\
  write_denied w' = write_denied w /\
  entropy w' = entropy w /\
  wallclock w' = wallclock w /\
  exists asked,
    p7_calls w' = (p7_calls w ++ asked)%list /\
    (1 <= length asked <= 2)%nat /\
    ticks w' = (ticks w + length asked)%nat.
Proof.
  rewrite Verify_run. cbv zeta.
  destruct (pkcs7.verdict p7 None _) as [e|].
  - destruct (strings_Contains e validity_window_text); simpl.
    + repeat split. eexists [_; _]. rewrite <- app_assoc. simpl.
      repeat split; lia.
    + repeat split. eexists [_]. simpl. repeat split; lia.
  - simpl. repeat split. eexists [_]. simpl. repeat split; lia.
Qed.
